(** * Multipart upload client (example/upload.py): model and properties

    The client splits a local file into 5 MiB chunks and drives a remote
    worker through create / put-part / complete, with a compensating abort.
    The program talks to three outside parties: the wall clock, the file
    system and the worker reached over HTTP.  They are gathered in a [world];
    the program itself is a computation in a state-and-exception monad whose
    state records the clock reads made, the HTTP exchanges performed and
    the console lines printed. *)

From Stdlib Require Import List ZArith QArith String Ascii Bool Lia.
From Stdlib Require Import DecimalString Qround.
From Stdlib.Strings Require Import Byte.
Import ListNotations.
Set Warnings "-register-all".
Close Scope Q_scope.
Open Scope string_scope.
Open Scope list_scope.
Open Scope Z_scope.

(** String concatenation, as done by f-strings. *)
Infix "+++" := String.append (at level 60, right associativity).

(** ** Python values received from the worker

    [response.json()] yields a Python value built from JSON.  Numbers are
    the integers; JSON floats are not represented. *)

Inductive json : Type :=
| JNull
| JBool (b : bool)
| JInt (n : Z)
| JStr (s : string)
| JList (items : list json)
| JDict (fields : list (string * json)).

Definition dict := list (string * json).

(** [d.get(key)] on a dict; [None] when the key is absent. *)
Fixpoint dict_get (key : string) (d : dict) : option json :=
  match d with
  | [] => None
  | (k, v) :: d' => if String.eqb k key then Some v else dict_get key d'
  end.

(** Python truth value of an object, as tested by [if not x]. *)
Definition truthy (j : json) : bool :=
  match j with
  | JNull => false
  | JBool b => b
  | JInt n => negb (n =? 0)
  | JStr s => negb (String.eqb s EmptyString)
  | JList l => match l with [] => false | _ => true end
  | JDict d => match d with [] => false | _ => true end
  end.

Definition type_name (j : json) : string :=
  match j with
  | JNull => "NoneType"
  | JBool _ => "bool"
  | JInt _ => "int"
  | JStr _ => "str"
  | JList _ => "list"
  | JDict _ => "dict"
  end.

(** [bool] is a subclass of [int]: [True] counts as 1 in arithmetic. *)
Definition as_int (j : json) : option Z :=
  match j with
  | JInt n => Some n
  | JBool b => Some (Z.b2z b)
  | _ => None
  end.

Definition dquote : string := String (ascii_of_nat 34) EmptyString.

Definition str_of_int (n : Z) : string := NilZero.string_of_int (Z.to_int n).

(** [repr(x)] and [str(x)], as f-strings apply them.  Strings nested in a
    list or dict are quoted without escaping. *)
Fixpoint py_repr (j : json) : string :=
  match j with
  | JNull => "None"
  | JBool true => "True"
  | JBool false => "False"
  | JInt n => str_of_int n
  | JStr s => "'" +++ s +++ "'"
  | JList l =>
      "[" +++
      (fix items (l : list json) : string :=
         match l with
         | [] => EmptyString
         | x :: l' =>
             match l' with
             | [] => py_repr x
             | _ => py_repr x +++ ", " +++ items l'
             end
         end) l +++ "]"
  | JDict d =>
      "{" +++
      (fix fields (d : list (string * json)) : string :=
         match d with
         | [] => EmptyString
         | (k, v) :: d' =>
             match d' with
             | [] => "'" +++ k +++ "': " +++ py_repr v
             | _ => "'" +++ k +++ "': " +++ py_repr v +++ ", " +++ fields d'
             end
         end) d +++ "}"
  end.

Definition py_str (j : json) : string :=
  match j with
  | JStr s => s
  | _ => py_repr j
  end.

(** ** Exceptions

    [UploadError] is the program's own class; the others are the library
    and built-in classes (all below [Exception]) that the program's
    operations raise.  Exceptions delivered asynchronously, such as the
    [KeyboardInterrupt] that [main] handles, are not part of the model. *)

Inductive exn : Type :=
| UploadError (msg : string)
| RequestException (msg : string)
| KeyError (key : string)
| AttributeError (msg : string)
| TypeError (msg : string)
| ZeroDivisionError (msg : string)
| OverflowError (msg : string)
| OSError (msg : string)
| OtherException (cls msg : string).

(** [str(e)]: a [KeyError] prints the repr of its key. *)
Definition str_exn (e : exn) : string :=
  match e with
  | UploadError m | RequestException m | AttributeError m | TypeError m
  | ZeroDivisionError m | OverflowError m | OSError m
  | OtherException _ m => m
  | KeyError k => "'" +++ k +++ "'"
  end.

Definition is_UploadError (e : exn) : bool :=
  match e with UploadError _ => true | _ => false end.

(** ** HTTP requests and their outcomes *)

(** A bearer token is either minted locally with [jwt.encode] (kept as
    the term that was signed) or a value handed out by the worker. *)
Inductive token : Type :=
| JwtEncode (payload : json) (key : string) (algorithm : string)
| Opaque (v : json).

Inductive body : Type :=
| NoBody
| JsonBody (j : json)
| DataBody (chunk : list byte).

Record request : Type := mkRequest {
  method : string;
  url : string;
  bearer : token;                       (* Authorization: Bearer <token> *)
  headers : list (string * string);     (* the caller's extra headers *)
  payload : body
}.

Record response : Type := mkResponse {
  http_error : option string;           (* what raise_for_status() raises *)
  json_body : exn + json                (* what json() raises or returns *)
}.

Inductive outcome : Type :=
| Raised (e : exn)                      (* requests.request raised e *)
| Responded (r : response).

Definition exchange : Type := request * outcome.

(** ** The outside world *)

Record world : Type := mkWorld {
  clock : nat -> Q;                     (* the n-th reading of time.time(),
                                           a float taken as the rational
                                           it stands for *)
  worker : list exchange -> request -> outcome;
  path_exists : bool;                   (* os.path.exists(file_path) *)
  getsize : Z;                          (* os.path.getsize(file_path) *)
  guess_type : option string;           (* mimetypes.guess_type(file_path)[0] *)
  open_rb : exn + list byte             (* open(file_path, 'rb') *)
}.

Record state : Type := mkState {
  ticks : nat;                          (* clock readings taken so far *)
  exchanges : list exchange;            (* HTTP exchanges, oldest first *)
  stdout : list string                  (* lines printed, oldest first *)
}.

Definition initial : state := mkState 0 [] [].

(** ** The monad of the program *)

Inductive result (A : Type) : Type :=
| Ok (a : A)
| Raise (e : exn).

Arguments Ok {A} a.
Arguments Raise {A} e.

Definition M (A : Type) : Type := state -> result A * state.

Definition ret {A} (a : A) : M A := fun s => (Ok a, s).

Definition raise {A} (e : exn) : M A := fun s => (Raise e, s).

Definition bind {A B} (c : M A) (k : A -> M B) : M B :=
  fun s => match c s with
           | (Ok a, s') => k a s'
           | (Raise e, s') => (Raise e, s')
           end.

(** [try: c except Exception as e: h e] *)
Definition try_except {A} (c : M A) (h : exn -> M A) : M A :=
  fun s => match c s with
           | (Ok a, s') => (Ok a, s')
           | (Raise e, s') => h e s'
           end.

Notation "x <- c ;; k" := (bind c (fun x => k))
  (at level 61, c at next level, right associativity).

Notation "' pat <- c ;; k" :=
  (bind c (fun x => match x with pat => k end))
  (at level 61, pat pattern, c at next level, right associativity).

Notation "c ;;; k" := (bind c (fun _ => k))
  (at level 61, right associativity).

(** An operation that touches neither the clock, the network nor the
    console is a plain [result]; [lift] runs it inside the program. *)
Definition lift {A} (r : result A) : M A := fun s => (r, s).

Definition print (line : string) : M unit :=
  fun s => (Ok tt, mkState (ticks s) (exchanges s) (stdout s ++ [line])).

(** [int(x)] on a float truncates toward zero. *)
Definition py_int (x : Q) : Z := Z.quot (Qnum x) (Zpos (Qden x)).

(** [data[key]] on a dict. *)
Definition getitem (d : dict) (key : string) : result json :=
  match dict_get key d with
  | Some v => Ok v
  | None => Raise (KeyError key)
  end.

(** [data.get(key)]; only a dict has the method. *)
Definition get (data : json) (key : string) : result (dict * json) :=
  match data with
  | JDict d =>
      Ok (d, match dict_get key d with Some v => v | None => JNull end)
  | _ => Raise (AttributeError
                  ("'" +++ type_name data +++ "' object has no attribute 'get'"))
  end.

(** [x + 1] *)
Definition add_one (x : json) : result Z :=
  match x with
  | JInt n => Ok (n + 1)
  | JBool b => Ok (Z.b2z b + 1)
  | JStr _ | JList _ =>
      Raise (TypeError ("can only concatenate " +++ type_name x +++ " (not "
                          +++ dquote +++ "int" +++ dquote +++ ") to "
                          +++ type_name x))
  | _ => Raise (TypeError ("unsupported operand type(s) for +: '"
                             +++ type_name x +++ "' and 'int'"))
  end.

(** [a / b], true division of Python integers.  The quotient is a float:
    dividing by zero raises, and so does a quotient that rounds to more
    than the largest double.  The quotient itself is only ever printed. *)
Definition float_overflow_bound : Z := 2 ^ 1024 - 2 ^ 970.

Definition truediv (a b : json) : result unit :=
  match as_int a, as_int b with
  | Some x, Some y =>
      if y =? 0 then Raise (ZeroDivisionError "division by zero")
      else if float_overflow_bound * Z.abs y <=? Z.abs x
           then Raise (OverflowError
                         "integer division result too large for a float")
           else Ok tt
  | _, _ =>
      Raise (TypeError ("unsupported operand type(s) for /: '"
                          +++ type_name a +++ "' and '"
                          +++ type_name b +++ "'"))
  end.

(** [n / x] for an integer [n] and a float [x]: [n] is converted to a
    float first. *)
Definition truediv_float (n : Z) (x : Q) : result unit :=
  if float_overflow_bound <=? Z.abs n
  then Raise (OverflowError "int too large to convert to float")
  else if Qeq_bool x 0 then Raise (ZeroDivisionError "float division by zero")
       else Ok tt.

(** [f.read(size)] on a file opened in binary mode: the next [size] bytes,
    fewer at the end of the file, and what is left to read. *)
Fixpoint read (size : Z) (f : list byte) : list byte * list byte :=
  match f with
  | [] => ([], [])
  | b :: f' =>
      if size <=? 0 then ([], f)
      else let (chunk, rest) := read (size - 1) f' in (b :: chunk, rest)
  end.

Definition len (chunk : list byte) : Z := Z.of_nat (List.length chunk).

(** ** The program *)

Definition CHUNK_SIZE : Z := 5 * 1024 * 1024.

(** The uploader object after [__init__]. *)
Record MultipartUploader : Type := mkUploader {
  base_url : string;
  jwt_secret : string
}.

Section Program.

Variable W : world.

Variable self : MultipartUploader.

Definition time_time : M Q :=
  fun s => (Ok (clock W (ticks s)),
            mkState (S (ticks s)) (exchanges s) (stdout s)).

Definition requests_request (req : request) : M response :=
  fun s =>
    let o := worker W (exchanges s) req in
    let s' := mkState (ticks s) (exchanges s ++ [(req, o)]) (stdout s) in
    match o with
    | Raised e => (Raise e, s')
    | Responded r => (Ok r, s')
    end.

Definition raise_for_status (r : response) : result unit :=
  match http_error r with
  | Some m => Raise (RequestException m)
  | None => Ok tt
  end.

Definition response_json (r : response) : result json :=
  match json_body r with
  | inl e => Raise e
  | inr j => Ok j
  end.

Definition _generate_backend_jwt (action : string) : M token :=
  iat <- time_time ;;
  exp <- time_time ;;
  ret (JwtEncode
         (JDict [("type", JStr "backend");
                 ("action", JStr action);
                 ("iat", JInt (py_int iat));
                 ("exp", JInt (py_int exp + 3600))])
         (jwt_secret self) "HS256").

Definition _get_file_info (file_path : string) : result (Z * string) :=
  if negb (path_exists W)
  then Raise (UploadError ("File not found: " +++ file_path))
  else
    let file_size := getsize W in
    let mime_type := match guess_type W with
                     | Some t => t
                     | None => "application/octet-stream"
                     end in
    Ok (file_size, mime_type).

Definition _make_request (method endpoint : string) (tok : token)
    (data : body) (hdrs : list (string * string)) : M response :=
  let url := base_url self +++ endpoint in
  try_except
    (response <- requests_request (mkRequest method url tok hdrs data) ;;
     lift (raise_for_status response) ;;;
     ret response)
    (fun e => match e with
              | RequestException m =>
                  raise (UploadError ("Request failed: " +++ m))
              | _ => raise e
              end).

Definition create_upload (file_id : string) (file_size : Z)
    (mime_type : string) : M dict :=
  print ("Creating upload for file ID: " +++ file_id) ;;;
  backend_token <- _generate_backend_jwt "create" ;;
  let payload := JDict [("id", JStr file_id);
                        ("fileSize", JInt file_size);
                        ("mimeType", JStr mime_type)] in
  response <- _make_request "POST" "/upload/create" backend_token
                (JsonBody payload) [] ;;
  data <- lift (response_json response) ;;
  '(data, success) <- lift (get data "success") ;;
  if negb (truthy success)
  then raise (UploadError
                ("Failed to create upload: "
                   +++ match dict_get "error" data with
                       | Some v => py_str v
                       | None => "Unknown error"
                       end))
  else
    uploadId <- lift (getitem data "uploadId") ;;
    print ("Upload created successfully. Upload ID: " +++ py_str uploadId) ;;;
    totalParts <- lift (getitem data "totalParts") ;;
    print ("Total parts: " +++ py_str totalParts) ;;;
    ret data.

Definition open_file : result (list byte) :=
  match open_rb W with
  | inl e => Raise e
  | inr content => Ok content
  end.

(** The [for part_number in range(1, total_parts + 1)] loop of
    [upload_file_parts]: [remaining] iterations are left, [f] is what the
    file handle has still to deliver and [parts] the list built so far. *)
Fixpoint upload_loop (client_token total_parts : json) (remaining : nat)
    (part_number : Z) (f : list byte) (parts : list json)
    : M (list json) :=
  match remaining with
  | O => ret parts
  | S remaining' =>
      let (chunk, f') := read CHUNK_SIZE f in
      match chunk with
      | [] => ret parts                                   (* break *)
      | _ :: _ =>
          let is_last_part :=
            match as_int total_parts with
            | Some t => part_number =? t
            | None => false
            end in
          print ("Uploading part " +++ str_of_int part_number +++ "/"
                   +++ py_str total_parts +++ " ("
                   +++ str_of_int (len chunk) +++ " bytes)") ;;;
          let endpoint := "/upload/part/" +++ str_of_int part_number in
          let endpoint := if is_last_part
                          then endpoint +++ "?isLast=true"
                          else endpoint in
          response <- _make_request "PUT" endpoint (Opaque client_token)
                        (DataBody chunk)
                        [("Content-Type", "application/octet-stream")] ;;
          part_data <- lift (response_json response) ;;
          '(part_data, success) <- lift (get part_data "success") ;;
          if negb (truthy success)
          then raise (UploadError
                        ("Failed to upload part " +++ str_of_int part_number
                           +++ ": "
                           +++ py_str match dict_get "error" part_data with
                                      | Some v => v
                                      | None => JNull
                                      end))
          else
            partNumber <- lift (getitem part_data "partNumber") ;;
            etag <- lift (getitem part_data "etag") ;;
            let parts := parts ++ [JDict [("partNumber", partNumber);
                                          ("etag", etag)]] in
            (* progress, shown as a percentage *)
            uploadedBytes <- lift (getitem part_data "uploadedBytes") ;;
            totalBytes <- lift (getitem part_data "totalBytes") ;;
            lift (truediv uploadedBytes totalBytes) ;;;
            upload_loop client_token total_parts remaining'
              (part_number + 1) f' parts
      end
  end.

Definition upload_file_parts (file_path : string) (client_token : json)
    (upload_info : dict) : M (list json) :=
  total_parts <- lift (getitem upload_info "totalParts") ;;
  print ("Starting upload of " +++ py_str total_parts +++ " parts...") ;;;
  f <- lift open_file ;;
  stop <- lift (add_one total_parts) ;;
  parts <- upload_loop client_token total_parts (Z.to_nat (stop - 1)) 1 f [] ;;
  print "All parts uploaded successfully!" ;;;
  ret parts.

Definition complete_upload (upload_id : json) (file_id : string)
    (parts : list json) : M dict :=
  print "Completing upload..." ;;;
  backend_token <- _generate_backend_jwt "complete" ;;
  let payload := JDict [("uploadId", upload_id); ("parts", JList parts)] in
  response <- _make_request "POST" ("/upload/complete?fileId=" +++ file_id)
                backend_token (JsonBody payload) [] ;;
  data <- lift (response_json response) ;;
  '(data, success) <- lift (get data "success") ;;
  if negb (truthy success)
  then raise (UploadError
                ("Failed to complete upload: "
                   +++ py_str match dict_get "error" data with
                              | Some v => v
                              | None => JNull
                              end))
  else
    print "Upload completed successfully!" ;;;
    ret data.

Definition abort_upload (upload_id : json) (file_id : string) : M unit :=
  print "Aborting upload..." ;;;
  backend_token <- _generate_backend_jwt "abort" ;;
  try_except
    (_make_request "DELETE"
       ("/upload/abort/" +++ py_str upload_id +++ "?fileId=" +++ file_id)
       backend_token NoBody [] ;;;
     print "Upload aborted successfully")
    (fun e => print ("Warning: Failed to abort upload: " +++ str_exn e)).

(** [upload_file] is written as three pieces: the statements before the
    inner [try] ([open_session]), the body of the inner [try]
    ([transfer]), and the two nested handlers around them.

    Of the lines the program prints, [stdout] records those made of text
    and integers.  The lines that format a float (size in MB, progress,
    upload time, speed) and the success banner are left out; the
    exceptions that evaluating their arguments raises are kept, in the
    order of the source. *)

Definition open_session (file_path resource_name : string)
    : M (Z * dict * json * json) :=
  '(file_size, mime_type) <- lift (_get_file_info file_path) ;;
  print ("File: " +++ file_path) ;;;
  lift (truediv (JInt file_size) (JInt (1024 * 1024))) ;;;
  print ("MIME type: " +++ mime_type) ;;;
  upload_info <- create_upload resource_name file_size mime_type ;;
  client_token <- lift (getitem upload_info "clientToken") ;;
  upload_id <- lift (getitem upload_info "uploadId") ;;
  ret (file_size, upload_info, client_token, upload_id).

Definition transfer (start_time : Q) (file_path resource_name : string)
    (file_size : Z) (upload_info : dict) (client_token upload_id : json)
    : M string :=
  parts <- upload_file_parts file_path client_token upload_info ;;
  completion_info <- complete_upload upload_id resource_name parts ;;
  let file_url := base_url self +++ "/file/" +++ resource_name in
  now <- time_time ;;
  let elapsed_time := Qminus now start_time in
  print ("Resource name: " +++ resource_name) ;;;
  print ("File URL: " +++ file_url) ;;;
  etag <- lift (getitem completion_info "etag") ;;
  print ("ETag: " +++ py_str etag) ;;;
  size <- lift (getitem completion_info "size") ;;
  print ("Size: " +++ py_str size +++ " bytes") ;;;
  lift (truediv_float file_size elapsed_time) ;;;
  ret file_url.

Definition upload_file (file_path resource_name : string) : M string :=
  start_time <- time_time ;;
  try_except
    ('(file_size, upload_info, client_token, upload_id) <-
       open_session file_path resource_name ;;
     try_except
       (transfer start_time file_path resource_name
          file_size upload_info client_token upload_id)
       (fun e =>
          (* Abort upload on error *)
          abort_upload upload_id resource_name ;;;
          raise e))
    (fun e => match e with
              | UploadError _ => raise e
              | _ => raise (UploadError ("Unexpected error: " +++ str_exn e))
              end).

End Program.

(** * Describing runs

    The vocabulary in which runs of the program are described: results
    put in sequence, the kinds of requests, what the worker can answer,
    and the chunks of a file. *)

(** Sequencing of plain results, for describing what a run computes. *)
Definition and_then {A B} (r : result A) (k : A -> result B) : result B :=
  match r with
  | Ok a => k a
  | Raise e => Raise e
  end.

(** The handlers at the end of [upload_file]: an [UploadError] passes, any
    other exception is re-raised as an [UploadError]. *)
Definition surfaced (e : exn) : exn :=
  match e with
  | UploadError _ => e
  | _ => UploadError ("Unexpected error: " +++ str_exn e)
  end.

Definition is_put (x : exchange) : bool := String.eqb (method (fst x)) "PUT".

Definition is_delete (x : exchange) : bool :=
  String.eqb (method (fst x)) "DELETE".

(** ** What the worker can answer, in the words of the protocol *)

Definition success_of (d : dict) : json :=
  match dict_get "success" d with Some v => v | None => JNull end.

Definition error_of (d : dict) : json :=
  match dict_get "error" d with Some v => v | None => JNull end.

(** [call_fails rejection o e]: the remote call whose outcome is [o]
    failed, either at the HTTP level (the request raised, or the status
    was an error) or because the worker answered without a true
    ["success"]; [e] is the error [_make_request] or its caller raises
    for it. *)
Inductive call_fails (rejection : dict -> string) : outcome -> exn -> Prop :=
| fails_transport m :
    call_fails rejection (Raised (RequestException m))
      (UploadError ("Request failed: " +++ m))
| fails_status m b :
    call_fails rejection (Responded (mkResponse (Some m) b))
      (UploadError ("Request failed: " +++ m))
| fails_rejected d :
    truthy (success_of d) = false ->
    call_fails rejection (Responded (mkResponse None (inr (JDict d))))
      (UploadError (rejection d)).

Definition create_rejection (d : dict) : string :=
  "Failed to create upload: "
    +++ match dict_get "error" d with
        | Some v => py_str v
        | None => "Unknown error"
        end.

Definition part_rejection (part_number : Z) (d : dict) : string :=
  "Failed to upload part " +++ str_of_int part_number +++ ": "
    +++ py_str (error_of d).

(** The worker stores a part: a well-formed acknowledgement, on which
    the loop goes on. *)
Definition acknowledged (o : outcome) : Prop :=
  exists d part_number etag uploaded total,
    o = Responded (mkResponse None (inr (JDict d))) /\
    truthy (success_of d) = true /\
    dict_get "partNumber" d = Some part_number /\
    dict_get "etag" d = Some etag /\
    dict_get "uploadedBytes" d = Some uploaded /\
    dict_get "totalBytes" d = Some total /\
    truediv uploaded total = Ok tt.

(** The worker stores a part and echoes its number. *)
Definition echoes (part_number : Z) (o : outcome) : Prop :=
  exists d etag uploaded total,
    o = Responded (mkResponse None (inr (JDict d))) /\
    truthy (success_of d) = true /\
    dict_get "partNumber" d = Some (JInt part_number) /\
    dict_get "etag" d = Some etag /\
    dict_get "uploadedBytes" d = Some uploaded /\
    dict_get "totalBytes" d = Some total /\
    truediv uploaded total = Ok tt.

Definition entry_number (entry : json) : option json :=
  match entry with
  | JDict d => dict_get "partNumber" d
  | _ => None
  end.

(** ** Chunks of a file *)

Definition ceil_div (a b : Z) : Z := (a + b - 1) / b.

(** Lengths [C, C, ..., S mod C] of the chunks of a file of [size] bytes;
    the short chunk is absent when [C] divides [size]. *)
Definition expected_lengths (size : Z) : list Z :=
  repeat CHUNK_SIZE (Z.to_nat (size / CHUNK_SIZE))
  ++ (if size mod CHUNK_SIZE =? 0 then [] else [size mod CHUNK_SIZE]).

Definition part_numbers (total_parts : Z) : list Z :=
  map Z.of_nat (seq 1 (Z.to_nat total_parts)).

(** The successive non-empty reads of at most [n] chunks. *)
Fixpoint chunks (n : nat) (f : list byte) : list (list byte) :=
  match n with
  | O => []
  | S n' =>
      let (chunk, f') := read CHUNK_SIZE f in
      match chunk with
      | [] => []
      | _ :: _ => chunk :: chunks n' f'
      end
  end.

Fixpoint count_from (part_number : Z) (k : nat) : list Z :=
  match k with
  | O => []
  | S k' => part_number :: count_from (part_number + 1) k'
  end.

(** ** More words for runs *)

Definition is_post (x : exchange) : bool :=
  String.eqb (method (fst x)) "POST".

(** The create response opens a session: it is a dict with a true
    ["success"] that holds the three fields [upload_file] reads. *)
Definition opens_session (o : outcome) (upload_info : dict)
    (client_token upload_id : json) : Prop :=
  o = Responded (mkResponse None (inr (JDict upload_info))) /\
  truthy (success_of upload_info) = true /\
  dict_get "uploadId" upload_info = Some upload_id /\
  dict_get "clientToken" upload_info = Some client_token /\
  exists total_parts, dict_get "totalParts" upload_info = Some total_parts.

Definition complete_rejection (d : dict) : string :=
  "Failed to complete upload: " +++ py_str (error_of d).

(** The entry [upload_file_parts] records for an acknowledgement. *)
Definition recorded (o : outcome) (entry : json) : Prop :=
  exists d part_number etag,
    o = Responded (mkResponse None (inr (JDict d))) /\
    truthy (success_of d) = true /\
    dict_get "partNumber" d = Some part_number /\
    dict_get "etag" d = Some etag /\
    entry = JDict [("partNumber", part_number); ("etag", etag)].

(** [n] times the character [c]. *)
Fixpoint repeated (c : ascii) (n : nat) : string :=
  match n with
  | O => EmptyString
  | S n' => String c (repeated c n')
  end.

(** The first of [keys] that [d] does not hold, if there is one. *)
Definition first_missing (keys : list string) (d : dict) : option string :=
  find (fun key => match dict_get key d with
                   | None => true
                   | Some _ => false
                   end) keys.

(** * The constructor and the command line

    [MultipartUploader.__init__] with [_load_config], then
    [create_sample_config] and [main].  The configuration file is read
    through [open] and [json.load]; [load_outcome] is what the two do for a
    path. *)

Definition CONFIG_FILE : string := "upload_config.json".

Inductive load_outcome : Type :=
| FileNotFoundError                   (* open raised FileNotFoundError *)
| JSONDecodeError                     (* json.load raised JSONDecodeError *)
| LoadRaised (e : exn)                (* open or json.load raised another e *)
| Loaded (config : json).

Definition _load_config (fs_load : string -> load_outcome)
    (config_path : string) : result json :=
  match fs_load config_path with
  | Loaded config => Ok config
  | FileNotFoundError =>
      Raise (UploadError
               ("Configuration file " +++ config_path +++ " not found"))
  | JSONDecodeError =>
      Raise (UploadError
               ("Invalid JSON in configuration file " +++ config_path))
  | LoadRaised e => Raise e
  end.

(** [x[key]] for a string [key], on whatever [json.load] returned. *)
Definition subscript (x : json) (key : string) : result json :=
  match x with
  | JDict d => getitem d key
  | JList _ =>
      Raise (TypeError "list indices must be integers or slices, not str")
  | JStr _ => Raise (TypeError "string indices must be integers, not 'str'")
  | _ => Raise (TypeError
                  ("'" +++ type_name x +++ "' object is not subscriptable"))
  end.

(** [s.rstrip(c)] for a one-character [c]: [s] without its trailing
    occurrences of [c]. *)
Fixpoint rstrip (c : ascii) (s : string) : string :=
  match s with
  | EmptyString => EmptyString
  | String a s' =>
      match rstrip c s' with
      | EmptyString =>
          if Ascii.eqb a c then EmptyString else String a EmptyString
      | String _ _ as t => String a t
      end
  end.

Definition slash : ascii := ascii_of_nat 47.

(** [x.rstrip("/")]; only a string has the method. *)
Definition rstrip_slashes (x : json) : result string :=
  match x with
  | JStr s => Ok (rstrip slash s)
  | _ => Raise (AttributeError
                  ("'" +++ type_name x
                     +++ "' object has no attribute 'rstrip'"))
  end.

(** The attributes [__init__] sets.  The secret is whatever the file
    holds under ["jwt_secret"]. *)
Record uploader_object : Type := mkObject {
  config : json;
  object_base_url : string;
  object_jwt_secret : json
}.

Definition __init__ (fs_load : string -> load_outcome)
    (config_path : string) : result uploader_object :=
  match _load_config fs_load config_path with
  | Raise e => Raise e
  | Ok config =>
      match subscript config "worker_url" with
      | Raise e => Raise e
      | Ok worker_url =>
          match rstrip_slashes worker_url with
          | Raise e => Raise e
          | Ok base_url =>
              match subscript config "jwt_secret" with
              | Raise e => Raise e
              | Ok jwt_secret => Ok (mkObject config base_url jwt_secret)
              end
          end
      end
  end.

(** [upload_file] on an object whose secret is not a string: the first
    [jwt.encode], in [create_upload], raises [TypeError] once the payload
    is built, before any request is made. *)
Definition upload_file_unusable_secret (W : world)
    (file_path resource_name : string) : M string :=
  start_time <- time_time W ;;
  try_except
    ('(file_size, mime_type) <- lift (_get_file_info W file_path) ;;
     print ("File: " +++ file_path) ;;;
     lift (truediv (JInt file_size) (JInt (1024 * 1024))) ;;;
     print ("MIME type: " +++ mime_type) ;;;
     print ("Creating upload for file ID: " +++ resource_name) ;;;
     iat <- time_time W ;;
     exp <- time_time W ;;
     raise (TypeError "Expected a string value"))
    (fun e => match e with
              | UploadError _ => raise e
              | _ => raise (UploadError ("Unexpected error: " +++ str_exn e))
              end).

(** [uploader.upload_file(file_path, resource_name)] on a constructed
    object. *)
Definition object_upload_file (W : world) (self : uploader_object)
    (file_path resource_name : string) : M string :=
  match object_jwt_secret self with
  | JStr secret =>
      upload_file W (mkUploader (object_base_url self) secret)
        file_path resource_name
  | _ => upload_file_unusable_secret W file_path resource_name
  end.

Definition sample_config : json :=
  JDict [("worker_url", JStr "http://localhost:8787");
         ("jwt_secret", JStr "your-jwt-secret-here")].

(** [create_sample_config]: the document dumped to [CONFIG_FILE] and the
    lines printed, or the exception writing the file raises. *)
Definition create_sample_config (fs_write : option exn)
    : result (list (string * json) * list string) :=
  match fs_write with
  | Some e => Raise e
  | None =>
      Ok ([(CONFIG_FILE, sample_config)],
          ["Sample configuration created: " +++ CONFIG_FILE;
           "Please edit the file with your actual worker URL and JWT secret."])
  end.

(** What a run of [main] is given. *)
Record process : Type := mkProcess {
  argv : list string;                   (* sys.argv *)
  config_present : bool;                (* os.path.exists(CONFIG_FILE) *)
  fs_load : string -> load_outcome;     (* open(path, 'r') and json.load *)
  fs_write : option exn;                (* what writing CONFIG_FILE raises *)
  env : world
}.

(** How [main] ends: it returns, [sys.exit(code)] is called, or an
    exception leaves it. *)
Inductive termination : Type :=
| Returned
| SystemExit (code : Z)
| Uncaught (e : exn).

(** The exit status of the interpreter. *)
Definition exit_status (t : termination) : Z :=
  match t with
  | Returned => 0
  | SystemExit code => code
  | Uncaught _ => 1
  end.

Record report : Type := mkReport {
  status : termination;
  console : list string;                (* lines printed, oldest first *)
  traffic : list exchange;              (* HTTP exchanges, oldest first *)
  written : list (string * json)        (* JSON documents written, by path *)
}.

(** The text of a string given by its UTF-8 bytes. *)
Definition utf8 (codes : list nat) : string :=
  fold_right (fun n s => String (ascii_of_nat n) s) EmptyString codes.

Definition newline : string := utf8 [10%nat].

(** The signs that open the two lines [main] prints, byte for byte as the
    source file holds them. *)
Definition link_sign : string :=
  utf8 [239; 163; 191; 195; 188; 195; 174; 195; 179]%nat.

Definition cross_mark : string :=
  utf8 [226; 128; 154; 195; 185; 195; 165]%nat.

(** The [except UploadError] clause of [main]; another exception leaves
    [main]. *)
Definition upload_failed (e : exn) (out : list string)
    (sent : list exchange) : report :=
  match e with
  | UploadError msg =>
      mkReport (SystemExit 1)
        (out ++ [cross_mark +++ " Upload failed: " +++ msg]) sent []
  | _ => mkReport (Uncaught e) out sent []
  end.

(** [main].  Its [except KeyboardInterrupt] clause answers an
    asynchronous exception and has no counterpart here. *)
Definition main (p : process) : report :=
  if negb (Nat.eqb (List.length (argv p)) 3)
  then
    mkReport (SystemExit 1)
      ["Usage: python upload.py <file_path> <resource_name>";
       "Example: python upload.py ./image.jpg my-image"] [] []
  else
    let file_path := nth 1 (argv p) EmptyString in
    let resource_name := nth 2 (argv p) EmptyString in
    if negb (config_present p)
    then
      let not_found := "Configuration file " +++ CONFIG_FILE +++ " not found." in
      match create_sample_config (fs_write p) with
      | Raise e => mkReport (Uncaught e) [not_found] [] []
      | Ok (files, lines) =>
          mkReport (SystemExit 1) (not_found :: lines) [] files
      end
    else
      match __init__ (fs_load p) CONFIG_FILE with
      | Raise e => upload_failed e [] []
      | Ok uploader =>
          match object_upload_file (env p) uploader file_path resource_name
                  initial with
          | (Ok file_url, s') =>
              mkReport Returned
                (stdout s' ++
                   [newline +++ link_sign +++ " Your file is available at: "
                      +++ file_url])
                (exchanges s') []
          | (Raise e, s') => upload_failed e (stdout s') (exchanges s')
          end
      end.

(** * Scenarios

    Concrete worlds on which the statements below are exercised: a three
    byte file, a clock that advances one second per reading, and a worker
    that answers from a script, one outcome per request. *)
Module Scenario.

Definition uploader : MultipartUploader :=
  mkUploader "http://localhost:8787" "your-jwt-secret-here".

Definition reply (fields : dict) : outcome :=
  Responded (mkResponse None (inr (JDict fields))).

Definition scripted (script : list outcome) (h : list exchange)
    (req : request) : outcome :=
  nth (List.length h) script (Raised (RequestException "connection refused")).

Definition seconds (n : nat) : Q := inject_Z (Z.of_nat n).

Definition three_bytes : list byte := [x01; x02; x03].

Definition world_of (script : list outcome) : world :=
  mkWorld seconds (scripted script) true 3 None (inr three_bytes).

Definition created (total_parts : Z) : outcome :=
  reply [("success", JBool true); ("uploadId", JStr "upload-1");
         ("clientToken", JStr "client-token");
         ("totalParts", JInt total_parts)].

Definition stored (part_number : Z) (total_bytes : Z) : outcome :=
  reply [("success", JBool true); ("partNumber", JInt part_number);
         ("etag", JStr "etag-1"); ("uploadedBytes", JInt 3);
         ("totalBytes", JInt total_bytes)].

Definition assembled : outcome :=
  reply [("success", JBool true); ("etag", JStr "etag-all");
         ("size", JInt 3)].

Definition refusal : dict :=
  [("success", JBool false); ("error", JStr "quota exceeded")].

Definition unavailable : outcome :=
  Raised (RequestException "503 Server Error: Service Unavailable").

(** A clock whose first two readings, 1730000000.9 and 1730000001.1,
    fall on either side of a full second. *)
Definition straddling (n : nat) : Q :=
  Qmake (17300000009 + 2 * Z.of_nat n) 10.

Definition straddling_world : world :=
  mkWorld straddling (scripted []) true 3 None (inr three_bytes).

(** The file shrank after its size was taken: 6 MiB by [getsize], three
    bytes once opened. *)
Definition shrunk_world (script : list outcome) : world :=
  mkWorld seconds (scripted script) true (6 * 1024 * 1024) None
    (inr three_bytes).

(** No file at the path. *)
Definition nowhere : world :=
  mkWorld seconds (scripted []) false 0 None
    (inl (OSError "[Errno 2] No such file or directory: 'photo.jpg'")).

(** A file that exists but cannot be opened for reading. *)
Definition unreadable (script : list outcome) : world :=
  mkWorld seconds (scripted script) true 3 None
    (inl (OSError "[Errno 13] Permission denied: 'photo.jpg'")).

(** An empty file. *)
Definition empty_file (script : list outcome) : world :=
  mkWorld seconds (scripted script) true 0 None (inr []).

(** A worker that stores whatever part it is sent. *)
Definition storing_world : world :=
  mkWorld seconds (fun _ _ => stored 1 3) true 3 None (inr three_bytes).

Abbreviation run script :=
  (upload_file (world_of script) uploader "photo.jpg" "my-image" initial).

End Scenario.

(** * Runs of the program *)

Section Runs.

Variable W : world.

Variable self : MultipartUploader.

(** The token [_generate_backend_jwt action] returns when the clock has
    been read [k] times before the call. *)
Definition minted (k : nat) (action : string) : token :=
  JwtEncode
    (JDict [("type", JStr "backend");
            ("action", JStr action);
            ("iat", JInt (py_int (clock W k)));
            ("exp", JInt (py_int (clock W (S k)) + 3600))])
    (jwt_secret self) "HS256".

(** What [_make_request] hands back for an outcome of the HTTP call. *)
Definition request_result (o : outcome) : result response :=
  match o with
  | Raised (RequestException m) =>
      Raise (UploadError ("Request failed: " +++ m))
  | Raised e => Raise e
  | Responded r =>
      match http_error r with
      | Some m => Raise (UploadError ("Request failed: " +++ m))
      | None => Ok r
      end
  end.

Definition is_last_part (total_parts : json) (part_number : Z) : bool :=
  match as_int total_parts with
  | Some t => part_number =? t
  | None => false
  end.

Definition part_endpoint (total_parts : json) (part_number : Z) : string :=
  let endpoint := "/upload/part/" +++ str_of_int part_number in
  if is_last_part total_parts part_number
  then endpoint +++ "?isLast=true"
  else endpoint.

Definition part_request (client_token total_parts : json)
    (part_number : Z) (chunk : list byte) : request :=
  mkRequest "PUT" (base_url self +++ part_endpoint total_parts part_number)
    (Opaque client_token) [("Content-Type", "application/octet-stream")]
    (DataBody chunk).

(** What one turn of the loop makes of the outcome of its request: the
    entry appended to [parts], or the exception that ends the loop. *)
Definition part_result (part_number : Z) (o : outcome) : result json :=
  and_then (request_result o) (fun response =>
  and_then (response_json response) (fun part_data =>
  and_then (get part_data "success") (fun '(part_data, success) =>
  if negb (truthy success)
  then Raise (UploadError
                ("Failed to upload part " +++ str_of_int part_number
                   +++ ": "
                   +++ py_str match dict_get "error" part_data with
                              | Some v => v
                              | None => JNull
                              end))
  else
    and_then (getitem part_data "partNumber") (fun partNumber =>
    and_then (getitem part_data "etag") (fun etag =>
    and_then (getitem part_data "uploadedBytes") (fun uploadedBytes =>
    and_then (getitem part_data "totalBytes") (fun totalBytes =>
    and_then (truediv uploadedBytes totalBytes) (fun _ =>
    Ok (JDict [("partNumber", partNumber); ("etag", etag)]))))))))).

(** ** The loop, as a trace

    [loop_trace h n pn f parts xs r]: started after the exchanges [h] with
    [n] iterations left, next part number [pn], file remainder [f] and
    list [parts], the loop performs the exchanges [xs] and ends in [r]. *)
Inductive loop_trace (client_token total_parts : json)
  : list exchange -> nat -> Z -> list byte -> list json ->
    list exchange -> result (list json) -> Prop :=
| trace_range_done h pn f parts :
    loop_trace client_token total_parts h 0 pn f parts [] (Ok parts)
| trace_break h n pn f f' parts :
    read CHUNK_SIZE f = ([], f') ->
    loop_trace client_token total_parts h (S n) pn f parts [] (Ok parts)
| trace_raise h n pn f chunk f' parts e :
    read CHUNK_SIZE f = (chunk, f') ->
    chunk <> [] ->
    let req := part_request client_token total_parts pn chunk in
    let o := worker W h req in
    part_result pn o = Raise e ->
    loop_trace client_token total_parts h (S n) pn f parts
      [(req, o)] (Raise e)
| trace_next h n pn f chunk f' parts entry xs r :
    read CHUNK_SIZE f = (chunk, f') ->
    chunk <> [] ->
    let req := part_request client_token total_parts pn chunk in
    let o := worker W h req in
    part_result pn o = Ok entry ->
    loop_trace client_token total_parts (h ++ [(req, o)]) n (pn + 1) f'
      (parts ++ [entry]) xs r ->
    loop_trace client_token total_parts h (S n) pn f parts
      ((req, o) :: xs) r.

(** ** The calls around the loop *)

Definition mime_type : string :=
  match guess_type W with
  | Some t => t
  | None => "application/octet-stream"
  end.

Definition create_request (k : nat) (file_id : string) (file_size : Z)
    (mime : string) : request :=
  mkRequest "POST" (base_url self +++ "/upload/create") (minted k "create") []
    (JsonBody (JDict [("id", JStr file_id);
                      ("fileSize", JInt file_size);
                      ("mimeType", JStr mime)])).

Definition complete_request (k : nat) (upload_id : json) (file_id : string)
    (parts : list json) : request :=
  mkRequest "POST" (base_url self +++ "/upload/complete?fileId=" +++ file_id)
    (minted k "complete") []
    (JsonBody (JDict [("uploadId", upload_id); ("parts", JList parts)])).

Definition abort_request (k : nat) (upload_id : json) (file_id : string)
    : request :=
  mkRequest "DELETE"
    (base_url self +++ "/upload/abort/" +++ py_str upload_id
       +++ "?fileId=" +++ file_id)
    (minted k "abort") [] NoBody.

(** What [create_upload] returns for an outcome of its request. *)
Definition create_result (o : outcome) : result dict :=
  and_then (request_result o) (fun response =>
  and_then (response_json response) (fun data =>
  and_then (get data "success") (fun '(data, success) =>
  if negb (truthy success)
  then Raise (UploadError
                ("Failed to create upload: "
                   +++ match dict_get "error" data with
                       | Some v => py_str v
                       | None => "Unknown error"
                       end))
  else
    and_then (getitem data "uploadId") (fun _ =>
    and_then (getitem data "totalParts") (fun _ =>
    Ok data))))).

(** The session [upload_file] works with after [create_upload]. *)
Definition session_result (o : outcome) : result (dict * json * json) :=
  and_then (create_result o) (fun upload_info =>
  and_then (getitem upload_info "clientToken") (fun client_token =>
  and_then (getitem upload_info "uploadId") (fun upload_id =>
  Ok (upload_info, client_token, upload_id)))).

Definition complete_result (o : outcome) : result dict :=
  and_then (request_result o) (fun response =>
  and_then (response_json response) (fun data =>
  and_then (get data "success") (fun '(data, success) =>
  if negb (truthy success)
  then Raise (UploadError
                ("Failed to complete upload: "
                   +++ py_str match dict_get "error" data with
                              | Some v => v
                              | None => JNull
                              end))
  else Ok data))).

(** The summary printed after [complete_upload]. *)
Definition summary_result (elapsed_time : Q) (file_size : Z)
    (completion_info : dict) : result unit :=
  and_then (getitem completion_info "etag") (fun _ =>
  and_then (getitem completion_info "size") (fun _ =>
  truediv_float file_size elapsed_time)).

(** The checks [upload_file] makes before it contacts the worker. *)
Definition preflight (file_path : string) : result unit :=
  and_then (_get_file_info W file_path) (fun '(file_size, _) =>
  truediv (JInt file_size) (JInt (1024 * 1024))).

(** The part-upload phase: either it fails before the loop starts, or the
    loop runs over the whole range. *)
Inductive parts_phase (client_token : json) (upload_info : dict)
    (h : list exchange) : list exchange -> result (list json) -> Prop :=
| parts_not_started e :
    and_then (getitem upload_info "totalParts") (fun total_parts =>
    and_then (open_file W) (fun _ =>
    and_then (add_one total_parts) (fun _ => Ok tt))) = Raise e ->
    parts_phase client_token upload_info h [] (Raise e)
| parts_looped total_parts content stop puts r :
    getitem upload_info "totalParts" = Ok total_parts ->
    open_file W = Ok content ->
    add_one total_parts = Ok stop ->
    loop_trace client_token total_parts h (Z.to_nat (stop - 1)) 1 content []
      puts r ->
    parts_phase client_token upload_info h puts r.

(** The line [abort_upload] prints once its request is over. *)
Definition abort_report (o : outcome) : string :=
  match request_result o with
  | Ok _ => "Upload aborted successfully"
  | Raise e => "Warning: Failed to abort upload: " +++ str_exn e
  end.

(** ** The five ways a call of [upload_file] ends

    [upload_outcome file_path resource_name s r s']: started in [s], the
    call ends in [s'] with [r]. *)
Section Outcome.

Variables (file_path resource_name : string) (s : state).

Let h := exchanges s.

Let k := ticks s.

Let cx : exchange :=
  let req := create_request (S k) resource_name (getsize W) mime_type in
  (req, worker W h req).

Definition complete_exchange (upload_id : json) (puts : list exchange)
    (parts : list json) : exchange :=
  let req := complete_request (3 + k) upload_id resource_name parts in
  (req, worker W (h ++ [cx] ++ puts) req).

Definition abort_exchange (n : nat) (upload_id : json)
    (before : list exchange) : exchange :=
  let req := abort_request n upload_id resource_name in
  (req, worker W (h ++ before) req).

Inductive upload_outcome : result string -> state -> Prop :=
| preflight_failed e s' :
    preflight file_path = Raise e ->
    exchanges s' = h ->
    upload_outcome (Raise (surfaced e)) s'
| create_failed e s' :
    preflight file_path = Ok tt ->
    session_result (snd cx) = Raise e ->
    exchanges s' = h ++ [cx] ->
    upload_outcome (Raise (surfaced e)) s'
| parts_failed upload_info client_token upload_id puts e s' :
    preflight file_path = Ok tt ->
    session_result (snd cx) = Ok (upload_info, client_token, upload_id) ->
    parts_phase client_token upload_info (h ++ [cx]) puts (Raise e) ->
    let ax := abort_exchange (3 + k) upload_id ([cx] ++ puts) in
    exchanges s' = h ++ [cx] ++ puts ++ [ax] ->
    ticks s' = (5 + k)%nat ->
    (exists out,
       stdout s' = out ++ ["Aborting upload..."; abort_report (snd ax)]) ->
    upload_outcome (Raise (surfaced e)) s'
| complete_failed upload_info client_token upload_id puts parts e n s' :
    preflight file_path = Ok tt ->
    session_result (snd cx) = Ok (upload_info, client_token, upload_id) ->
    parts_phase client_token upload_info (h ++ [cx]) puts (Ok parts) ->
    let qx := complete_exchange upload_id puts parts in
    (complete_result (snd qx) = Raise e /\ n = (5 + k)%nat) \/
    (exists completion_info,
       complete_result (snd qx) = Ok completion_info /\
       summary_result (Qminus (clock W (5 + k)) (clock W k)) (getsize W)
         completion_info = Raise e /\
       n = (6 + k)%nat) ->
    let ax := abort_exchange n upload_id ([cx] ++ puts ++ [qx]) in
    exchanges s' = h ++ [cx] ++ puts ++ [qx; ax] ->
    ticks s' = (2 + n)%nat ->
    (exists out,
       stdout s' = out ++ ["Aborting upload..."; abort_report (snd ax)]) ->
    upload_outcome (Raise (surfaced e)) s'
| completed upload_info client_token upload_id puts parts completion_info s' :
    preflight file_path = Ok tt ->
    session_result (snd cx) = Ok (upload_info, client_token, upload_id) ->
    parts_phase client_token upload_info (h ++ [cx]) puts (Ok parts) ->
    let qx := complete_exchange upload_id puts parts in
    complete_result (snd qx) = Ok completion_info ->
    summary_result (Qminus (clock W (5 + k)) (clock W k)) (getsize W)
      completion_info = Ok tt ->
    exchanges s' = h ++ [cx] ++ puts ++ [qx] ->
    upload_outcome (Ok (base_url self +++ "/file/" +++ resource_name)) s'.

End Outcome.

(** ** The program, call by call *)

Local Arguments String.append : simpl never.

Local Arguments str_of_int : simpl never.

Local Arguments py_str : simpl never.

Local Arguments truediv : simpl never.

Local Arguments read : simpl never.

Local Arguments truediv_float : simpl never.

Lemma generate_backend_jwt_run (action : string) (s : state) :
  _generate_backend_jwt W self action s =
  (Ok (minted (ticks s) action),
   mkState (S (S (ticks s))) (exchanges s) (stdout s)).
Proof. reflexivity. Qed.

Lemma make_request_run (m endpoint : string) (tok : token) (data : body)
    (hdrs : list (string * string)) (s : state) :
  let req := mkRequest m (base_url self +++ endpoint) tok hdrs data in
  let o := worker W (exchanges s) req in
  _make_request W self m endpoint tok data hdrs s =
  (request_result o,
   mkState (ticks s) (exchanges s ++ [(req, o)]) (stdout s)).
Proof.
  intros req o.
  unfold _make_request, try_except, bind, requests_request, lift,
    raise_for_status, request_result.
  fold req. fold o.
  destruct o as [e | r]; cbn.
  - destruct e; reflexivity.
  - destruct (http_error r); reflexivity.
Qed.

Lemma upload_loop_step (client_token total_parts : json) (n : nat)
    (part_number : Z) (f : list byte) (parts : list json) (s : state) :
  upload_loop W self client_token total_parts (S n) part_number f parts s =
  match read CHUNK_SIZE f with
  | ([], _) => (Ok parts, s)
  | (chunk, f') =>
      let req := part_request client_token total_parts part_number chunk in
      let o := worker W (exchanges s) req in
      let s1 :=
        mkState (ticks s) (exchanges s ++ [(req, o)])
          (stdout s ++
             ["Uploading part " +++ str_of_int part_number +++ "/"
                +++ py_str total_parts +++ " ("
                +++ str_of_int (len chunk) +++ " bytes)"]) in
      match part_result part_number o with
      | Ok entry =>
          upload_loop W self client_token total_parts n (part_number + 1)
            f' (parts ++ [entry]) s1
      | Raise e => (Raise e, s1)
      end
  end.
Proof.
  cbn [upload_loop].
  destruct (read CHUNK_SIZE f) as [chunk f'].
  destruct chunk as [| b chunk]; [reflexivity |].
  unfold bind at 1. unfold print at 1. unfold bind at 1.
  rewrite make_request_run. cbn [ticks exchanges stdout].
  fold (is_last_part total_parts part_number).
  fold (part_endpoint total_parts part_number).
  fold (part_request client_token total_parts part_number (b :: chunk)).
  set (req := part_request _ _ _ _).
  set (o := worker W (exchanges s) req).
  unfold part_result.
  destruct (request_result o) as [response | e]; [| reflexivity].
  cbn [and_then]. unfold bind at 1, lift at 1.
  destruct (response_json response) as [part_data | e]; [| reflexivity].
  cbn [and_then]. unfold bind at 1, lift at 1.
  destruct (get part_data "success") as [[d success] | e]; [| reflexivity].
  cbn [and_then].
  destruct (negb (truthy success)); [reflexivity |].
  unfold bind at 1, lift at 1.
  destruct (getitem d "partNumber") as [pn | e]; [| reflexivity].
  cbn [and_then]. unfold bind at 1, lift at 1.
  destruct (getitem d "etag") as [etag | e]; [| reflexivity].
  cbn [and_then]. unfold bind at 1, lift at 1.
  destruct (getitem d "uploadedBytes") as [ub | e]; [| reflexivity].
  cbn [and_then]. unfold bind at 1, lift at 1.
  destruct (getitem d "totalBytes") as [tb | e]; [| reflexivity].
  cbn [and_then]. unfold bind at 1, lift at 1.
  destruct (truediv ub tb) as [[] | e]; reflexivity.
Qed.

Lemma upload_loop_run (client_token total_parts : json) (n : nat) :
  forall (pn : Z) (f : list byte) (parts : list json) (s : state)
         (r : result (list json)) (s' : state),
    upload_loop W self client_token total_parts n pn f parts s = (r, s') ->
    exists xs,
      exchanges s' = exchanges s ++ xs /\
      ticks s' = ticks s /\
      loop_trace client_token total_parts (exchanges s) n pn f parts xs r.
Proof.
  induction n as [| n IH]; intros pn f parts s r s' Hrun.
  - cbn in Hrun. injection Hrun as <- <-.
    exists []. rewrite app_nil_r. repeat split. constructor.
  - rewrite upload_loop_step in Hrun.
    destruct (read CHUNK_SIZE f) as [chunk f'] eqn:Hread.
    destruct chunk as [| b chunk].
    + injection Hrun as <- <-.
      exists []. rewrite app_nil_r. repeat split.
      eapply trace_break; eassumption.
    + cbv zeta in Hrun.
      destruct (part_result pn _) as [entry | e] eqn:Hpart.
      * apply IH in Hrun. cbn [exchanges ticks] in Hrun.
        destruct Hrun as (xs & Hx & Ht & Htr).
        eexists (_ :: xs). rewrite Hx, <- app_assoc. cbn [app].
        repeat split; [assumption |].
        eapply trace_next; try eassumption. discriminate.
      * injection Hrun as <- <-. cbn [exchanges ticks].
        eexists [_]. repeat split.
        eapply trace_raise; try eassumption. discriminate.
Qed.

(** Every exchange of the loop is a part upload carrying the client token. *)
Lemma loop_trace_requests client_token total_parts h n pn f parts xs r :
  loop_trace client_token total_parts h n pn f parts xs r ->
  Forall (fun x => exists q chunk,
            fst x = part_request client_token total_parts q chunk) xs.
Proof.
  induction 1 as [h pn f parts | h n pn f f' parts Hread
                 | h n pn f chunk f' parts e0 Hread Hne req o Hpart
                 | h n pn f chunk f' parts entry xs r Hread Hne req o Hpart
                     Htr IH].
  - constructor.
  - constructor.
  - constructor; [| constructor]. exists pn, chunk. reflexivity.
  - constructor; [| assumption]. exists pn, chunk. reflexivity.
Qed.

(** An exchange whose outcome makes the loop raise is the last one, and
    what it raises is the result of the loop. *)
Lemma loop_trace_raise client_token total_parts h n pn f parts xs r :
  loop_trace client_token total_parts h n pn f parts xs r ->
  forall (i : nat) (x : exchange) (e : exn),
    nth_error xs i = Some x ->
    part_result (pn + Z.of_nat i) (snd x) = Raise e ->
    r = Raise e.
Proof.
  induction 1 as [h pn f parts | h n pn f f' parts Hread
                 | h n pn f chunk f' parts e0 Hread Hne req o Hpart
                 | h n pn f chunk f' parts entry xs r Hread Hne req o Hpart
                     Htr IH];
    intros i x e Hnth Hres.
  - destruct i; discriminate.
  - destruct i; discriminate.
  - destruct i as [| i]; [| destruct i; discriminate].
    injection Hnth as <-. cbn in Hres. rewrite Z.add_0_r in Hres.
    congruence.
  - destruct i as [| i].
    + injection Hnth as <-. cbn in Hres. rewrite Z.add_0_r in Hres.
      congruence.
    + apply (IH i x e Hnth).
      rewrite <- Hres. f_equal. lia.
Qed.

Lemma create_upload_run (file_id : string) (file_size : Z) (mime : string)
    (s : state) :
  let req := create_request (ticks s) file_id file_size mime in
  let o := worker W (exchanges s) req in
  exists s',
    create_upload W self file_id file_size mime s = (create_result o, s') /\
    exchanges s' = exchanges s ++ [(req, o)] /\
    ticks s' = S (S (ticks s)).
Proof.
  intros req o. unfold create_upload.
  unfold bind at 1, print at 1. unfold bind at 1.
  rewrite generate_backend_jwt_run. unfold bind at 1.
  rewrite make_request_run. cbn [ticks exchanges stdout].
  fold (create_request (ticks s) file_id file_size mime). fold req. fold o.
  unfold create_result.
  destruct (request_result o) as [response | e];
    [| eexists; repeat split; reflexivity].
  cbn [and_then]. unfold bind at 1, lift at 1.
  destruct (response_json response) as [data | e];
    [| eexists; repeat split; reflexivity].
  cbn [and_then]. unfold bind at 1, lift at 1.
  destruct (get data "success") as [[d success] | e];
    [| eexists; repeat split; reflexivity].
  cbn [and_then].
  destruct (negb (truthy success)); [eexists; repeat split; reflexivity |].
  unfold bind at 1, lift at 1.
  destruct (getitem d "uploadId") as [uid | e];
    [| eexists; repeat split; reflexivity].
  cbn [and_then]. unfold bind at 1, print at 1. unfold bind at 1, lift at 1.
  destruct (getitem d "totalParts") as [tp | e];
    eexists; repeat split; reflexivity.
Qed.

Lemma complete_upload_run (upload_id : json) (file_id : string)
    (parts : list json) (s : state) :
  let req := complete_request (ticks s) upload_id file_id parts in
  let o := worker W (exchanges s) req in
  exists s',
    complete_upload W self upload_id file_id parts s
      = (complete_result o, s') /\
    exchanges s' = exchanges s ++ [(req, o)] /\
    ticks s' = S (S (ticks s)).
Proof.
  intros req o. unfold complete_upload.
  unfold bind at 1, print at 1. unfold bind at 1.
  rewrite generate_backend_jwt_run. unfold bind at 1.
  rewrite make_request_run. cbn [ticks exchanges stdout].
  fold (complete_request (ticks s) upload_id file_id parts).
  fold req. fold o.
  unfold complete_result.
  destruct (request_result o) as [response | e];
    [| eexists; repeat split; reflexivity].
  cbn [and_then]. unfold bind at 1, lift at 1.
  destruct (response_json response) as [data | e];
    [| eexists; repeat split; reflexivity].
  cbn [and_then]. unfold bind at 1, lift at 1.
  destruct (get data "success") as [[d success] | e];
    [| eexists; repeat split; reflexivity].
  cbn [and_then].
  destruct (negb (truthy success)); eexists; repeat split; reflexivity.
Qed.

(** [abort_upload] always returns: a failed request only changes the line
    it prints. *)
Lemma abort_upload_run (upload_id : json) (file_id : string) (s : state) :
  let req := abort_request (ticks s) upload_id file_id in
  let o := worker W (exchanges s) req in
  abort_upload W self upload_id file_id s =
  (Ok tt,
   mkState (S (S (ticks s))) (exchanges s ++ [(req, o)])
     (stdout s ++
        ["Aborting upload...";
         match request_result o with
         | Ok _ => "Upload aborted successfully"
         | Raise e => "Warning: Failed to abort upload: " +++ str_exn e
         end])).
Proof.
  intros req o. unfold abort_upload.
  unfold bind at 1, print at 1. unfold bind at 1.
  rewrite generate_backend_jwt_run. unfold try_except, bind.
  rewrite make_request_run. cbn [ticks exchanges stdout].
  fold (abort_request (ticks s) upload_id file_id). fold req. fold o.
  destruct (request_result o) as [response | e];
    unfold print; cbn [ticks exchanges stdout];
    rewrite <- app_assoc; reflexivity.
Qed.

Lemma open_session_run (file_path resource_name : string) (s : state) :
  match preflight file_path with
  | Raise e =>
      exists s',
        open_session W self file_path resource_name s = (Raise e, s') /\
        exchanges s' = exchanges s /\
        ticks s' = ticks s
  | Ok _ =>
      let req := create_request (ticks s) resource_name (getsize W)
                   mime_type in
      let o := worker W (exchanges s) req in
      exists s',
        open_session W self file_path resource_name s =
        (and_then (session_result o) (fun '(upload_info, client_token, upload_id) =>
           Ok (getsize W, upload_info, client_token, upload_id)), s') /\
        exchanges s' = exchanges s ++ [(req, o)] /\
        ticks s' = S (S (ticks s))
  end.
Proof.
  unfold preflight, open_session, _get_file_info.
  destruct (negb (path_exists W)); cbn [and_then].
  { eexists; repeat split; reflexivity. }
  destruct (truediv (JInt (getsize W)) (JInt (1024 * 1024)))
    as [[] | e] eqn:Hdiv.
  2:{ unfold bind at 1, lift at 1. cbv beta iota.
      unfold bind at 1, print at 1. unfold bind at 1, lift at 1.
      rewrite Hdiv. eexists; repeat split; reflexivity. }
  cbv zeta.
  unfold bind at 1, lift at 1. cbv beta iota.
  unfold bind at 1, print at 1. unfold bind at 1, lift at 1.
  rewrite Hdiv.
  unfold bind at 1, print at 1. unfold bind at 1.
  fold mime_type.
  match goal with
  | |- context [create_upload W self ?a ?b ?c ?st] =>
      destruct (create_upload_run a b c st) as (s1 & Hc & Hx & Ht);
      rewrite Hc
  end.
  cbn [ticks exchanges stdout] in Hx, Ht |- *.
  unfold session_result.
  destruct (create_result _) as [info | e];
    [| exists s1; repeat split; assumption].
  cbn [and_then]. unfold bind at 1, lift at 1.
  destruct (getitem info "clientToken") as [ct | e];
    [| exists s1; repeat split; assumption].
  cbn [and_then]. unfold bind at 1, lift at 1.
  destruct (getitem info "uploadId") as [uid | e];
    exists s1; repeat split; assumption.
Qed.

Lemma upload_file_parts_run (file_path : string) (client_token : json)
    (upload_info : dict) (s : state) (r : result (list json)) (s' : state) :
  upload_file_parts W self file_path client_token upload_info s = (r, s') ->
  ticks s' = ticks s /\
  exists puts,
    exchanges s' = exchanges s ++ puts /\
    parts_phase client_token upload_info (exchanges s) puts r.
Proof.
  unfold upload_file_parts. unfold bind at 1, lift at 1.
  destruct (getitem upload_info "totalParts") as [tp | e] eqn:Htp.
  2:{ intros [= <- <-]. split; [reflexivity |]. exists [].
      rewrite app_nil_r. split; [reflexivity |].
      constructor. rewrite Htp. reflexivity. }
  unfold bind at 1, print at 1. unfold bind at 1, lift at 1.
  destruct (open_file W) as [content | e] eqn:Hopen.
  2:{ intros [= <- <-]. split; [reflexivity |]. exists [].
      rewrite app_nil_r. split; [reflexivity |].
      constructor. rewrite Htp. cbn [and_then]. rewrite Hopen. reflexivity. }
  unfold bind at 1, lift at 1.
  destruct (add_one tp) as [stop | e] eqn:Hstop.
  2:{ intros [= <- <-]. split; [reflexivity |]. exists [].
      rewrite app_nil_r. split; [reflexivity |].
      constructor. rewrite Htp. cbn [and_then]. rewrite Hopen.
      cbn [and_then]. rewrite Hstop. reflexivity. }
  unfold bind at 1.
  destruct (upload_loop _ _ _ _ _ _ _ _ _) as [rl sl] eqn:Hloop.
  apply upload_loop_run in Hloop. cbn [ticks exchanges] in Hloop.
  destruct Hloop as (puts & Hx & Ht & Htr).
  destruct rl as [parts | e].
  - unfold bind, print, ret. intros [= <- <-]. cbn [ticks exchanges].
    split; [assumption |]. exists puts. split; [assumption |].
    econstructor; eassumption.
  - intros [= <- <-]. split; [assumption |]. exists puts.
    split; [assumption |]. econstructor; eassumption.
Qed.

Lemma parts_phase_requests client_token upload_info h puts r :
  parts_phase client_token upload_info h puts r ->
  Forall (fun x => method (fst x) = "PUT" /\
                   bearer (fst x) = Opaque client_token) puts.
Proof.
  intros [e He | tp content stop puts' r' Htp Hopen Hstop Htr].
  - constructor.
  - apply loop_trace_requests in Htr.
    eapply Forall_impl; [| exact Htr].
    intros x (q & chunk & ->). split; reflexivity.
Qed.

Lemma parts_phase_raise client_token upload_info h puts r :
  parts_phase client_token upload_info h puts r ->
  forall (i : nat) (x : exchange) (e : exn),
    nth_error puts i = Some x ->
    part_result (1 + Z.of_nat i) (snd x) = Raise e ->
    r = Raise e.
Proof.
  intros [e He | tp content stop puts' r' Htp Hopen Hstop Htr] i x e' Hnth Hres.
  - destruct i; discriminate.
  - eapply loop_trace_raise; eassumption.
Qed.

Lemma transfer_run (start_time : Q) (file_path resource_name : string)
    (file_size : Z) (upload_info : dict) (client_token upload_id : json)
    (s : state) (r : result string) (s' : state) :
  transfer W self start_time file_path resource_name file_size upload_info
    client_token upload_id s = (r, s') ->
  exists puts rp,
    parts_phase client_token upload_info (exchanges s) puts rp /\
    match rp with
    | Raise e =>
        r = Raise e /\ exchanges s' = exchanges s ++ puts /\
        ticks s' = ticks s
    | Ok parts =>
        let req := complete_request (ticks s) upload_id resource_name parts in
        let o := worker W (exchanges s ++ puts) req in
        exchanges s' = exchanges s ++ puts ++ [(req, o)] /\
        match complete_result o with
        | Raise e => r = Raise e /\ ticks s' = S (S (ticks s))
        | Ok completion_info =>
            ticks s' = S (S (S (ticks s))) /\
            r = and_then
                  (summary_result
                     (Qminus (clock W (S (S (ticks s)))) start_time)
                     file_size completion_info)
                  (fun _ => Ok (base_url self +++ "/file/" +++ resource_name))
        end
    end.
Proof.
  unfold transfer. unfold bind at 1.
  destruct (upload_file_parts _ _ _ _ _ _) as [rp s1] eqn:Hparts.
  apply upload_file_parts_run in Hparts.
  destruct Hparts as (Ht1 & puts & Hx1 & Hphase).
  intros Hrun. exists puts, rp. split; [assumption |].
  destruct rp as [parts | e].
  2:{ injection Hrun as <- <-. auto. }
  cbv zeta. unfold bind at 1 in Hrun.
  destruct (complete_upload_run upload_id resource_name parts s1)
    as (s2 & Hc & Hx2 & Ht2).
  rewrite Hc in Hrun. rewrite Hx1, Ht1 in Hx2, Hrun. rewrite Ht1 in Ht2.
  destruct (complete_result _) as [completion_info | e].
  2:{ injection Hrun as <- <-. rewrite Hx2, <- app_assoc. auto. }
  unfold bind at 1, time_time at 1 in Hrun.
  unfold bind at 1, print at 1 in Hrun.
  unfold bind at 1, print at 1 in Hrun.
  unfold bind at 1, lift at 1 in Hrun.
  cbn [ticks exchanges stdout] in Hrun. rewrite Ht2 in Hrun.
  unfold summary_result.
  destruct (getitem completion_info "etag") as [etag | e].
  2:{ injection Hrun as <- <-. cbn [ticks exchanges].
      rewrite Hx2, <- app_assoc. auto. }
  unfold bind at 1, print at 1 in Hrun.
  unfold bind at 1, lift at 1 in Hrun.
  cbn [ticks exchanges stdout and_then] in Hrun |- *.
  destruct (getitem completion_info "size") as [size | e].
  2:{ injection Hrun as <- <-. cbn [ticks exchanges].
      rewrite Hx2, <- app_assoc. auto. }
  unfold bind at 1, print at 1 in Hrun.
  unfold bind at 1, lift at 1 in Hrun.
  cbn [ticks exchanges stdout and_then] in Hrun |- *.
  destruct (truediv_float _ _) as [[] | e];
    injection Hrun as <- <-; cbn [ticks exchanges and_then];
    rewrite Hx2, <- app_assoc; auto.
Qed.

(** [upload_file], handler by handler. *)
Lemma upload_file_run (file_path resource_name : string) (s : state) :
  upload_file W self file_path resource_name s =
  match open_session W self file_path resource_name
          (mkState (S (ticks s)) (exchanges s) (stdout s)) with
  | (Raise e, s1) => (Raise (surfaced e), s1)
  | (Ok (file_size, upload_info, client_token, upload_id), s1) =>
      match transfer W self (clock W (ticks s)) file_path resource_name
              file_size upload_info client_token upload_id s1 with
      | (Ok file_url, s2) => (Ok file_url, s2)
      | (Raise e, s2) =>
          (Raise (surfaced e),
           snd (abort_upload W self upload_id resource_name s2))
      end
  end.
Proof.
  unfold upload_file. unfold bind at 1, time_time at 1.
  unfold try_except at 1. unfold bind at 1.
  destruct (open_session _ _ _ _ _) as [[[[[fs info] ct] uid] | e] s1].
  2:{ destruct e; reflexivity. }
  unfold try_except.
  destruct (transfer _ _ _ _ _ _ _ _ _ _) as [[file_url | e] s2].
  - reflexivity.
  - unfold bind. rewrite abort_upload_run. cbn [snd].
    destruct e; reflexivity.
Qed.

Lemma upload_file_outcome (file_path resource_name : string) (s : state)
    (r : result string) (s' : state) :
  upload_file W self file_path resource_name s = (r, s') ->
  upload_outcome file_path resource_name s r s'.
Proof.
  rewrite upload_file_run.
  pose proof (open_session_run file_path resource_name
                (mkState (S (ticks s)) (exchanges s) (stdout s))) as Hs.
  cbn [ticks exchanges stdout] in Hs.
  destruct (preflight file_path) as [[] | e0] eqn:Hpre.
  2:{ destruct Hs as (s1 & Hs & Hx & Ht). rewrite Hs. intros [= <- <-].
      apply preflight_failed; assumption. }
  cbv zeta in Hs. destruct Hs as (s1 & Hs & Hx1 & Ht1). rewrite Hs.
  destruct (session_result _) as [[[info ct] uid] | e] eqn:Hsess;
    cbn [and_then].
  2:{ intros [= <- <-]. apply create_failed; assumption. }
  destruct (transfer _ _ _ _ _ _ _ _ _ _) as [rt s2] eqn:Htr.
  apply transfer_run in Htr. destruct Htr as (puts & rp & Hphase & Htr).
  rewrite Hx1 in Hphase, Htr. rewrite Ht1 in Htr.
  destruct rp as [parts | e].
  2:{ destruct Htr as (-> & Hx2 & Ht2). rewrite abort_upload_run. cbn [snd].
      intros [= <- <-].
      apply (parts_failed file_path resource_name s info ct uid puts e _ Hpre Hsess Hphase);
        cbn [exchanges ticks stdout].
      - rewrite Hx2, Ht2, <- !app_assoc. reflexivity.
      - rewrite Ht2. reflexivity.
      - exists (stdout s2). rewrite Hx2, Ht2, <- !app_assoc. reflexivity. }
  cbv zeta in Htr. destruct Htr as (Hx2 & Htr).
  rewrite <- app_assoc in Htr.
  destruct (complete_result _) as [completion_info | e] eqn:Hcomp.
  2:{ destruct Htr as (-> & Ht2). rewrite abort_upload_run. cbn [snd].
      intros [= <- <-].
      apply (complete_failed file_path resource_name s info ct uid puts parts e (5 + ticks s)%nat _
               Hpre Hsess Hphase (or_introl (conj Hcomp eq_refl)));
        cbn [exchanges ticks stdout].
      - rewrite Hx2, Ht2, <- !app_assoc. reflexivity.
      - rewrite Ht2. reflexivity.
      - exists (stdout s2). rewrite Hx2, Ht2, <- !app_assoc. reflexivity. }
  destruct Htr as (Ht2 & ->).
  destruct (summary_result _ _ _) as [[] | e] eqn:Hsum; cbn [and_then].
  - intros [= <- <-].
    apply (completed file_path resource_name s info ct uid puts parts completion_info _
             Hpre Hsess Hphase Hcomp Hsum).
    rewrite Hx2, <- !app_assoc. reflexivity.
  - rewrite abort_upload_run. cbn [snd]. intros [= <- <-].
    apply (complete_failed file_path resource_name s info ct uid puts parts e (6 + ticks s)%nat _
             Hpre Hsess Hphase
             (or_intror (ex_intro _ completion_info
                           (conj Hcomp (conj Hsum eq_refl)))));
      cbn [exchanges ticks stdout].
    + rewrite Hx2, Ht2, <- !app_assoc. reflexivity.
    + rewrite Ht2. reflexivity.
    + exists (stdout s2). rewrite Hx2, Ht2, <- !app_assoc. reflexivity.
Qed.

End Runs.

(** * Facts used by several properties *)

Lemma call_fails_create (o : outcome) (e : exn) :
  call_fails create_rejection o e ->
  session_result o = Raise e.
Proof.
  intros [m | m b | d Hd]; unfold session_result, create_result; cbn.
  - reflexivity.
  - reflexivity.
  - fold (success_of d). rewrite Hd. reflexivity.
Qed.

Lemma call_fails_part (n : Z) (o : outcome) (e : exn) :
  call_fails (part_rejection n) o e ->
  part_result n o = Raise e.
Proof.
  intros [m | m b | d Hd]; unfold part_result; cbn.
  - reflexivity.
  - reflexivity.
  - fold (success_of d). rewrite Hd. reflexivity.
Qed.

(** A session exists only if the worker answered the create call with a
    dict that holds the three fields. *)
Lemma session_result_ok (o : outcome)
    (upload_info : dict) (client_token upload_id : json) :
  session_result o = Ok (upload_info, client_token, upload_id) ->
  o = Responded (mkResponse None (inr (JDict upload_info))) /\
  truthy (success_of upload_info) = true /\
  dict_get "uploadId" upload_info = Some upload_id /\
  dict_get "clientToken" upload_info = Some client_token /\
  exists total_parts, dict_get "totalParts" upload_info = Some total_parts.
Proof.
  unfold session_result, create_result, request_result, response_json, get,
    getitem.
  destruct o as [e | [[m |] [e | data]]]; try (destruct e; discriminate);
    try discriminate.
  cbn [and_then http_error json_body].
  destruct data; try discriminate.
  cbn [and_then]. fold (success_of fields).
  destruct (truthy (success_of fields)) eqn:Hsuccess; [| discriminate].
  cbn [negb].
  destruct (dict_get "uploadId" fields) as [uid |] eqn:Huid;
    [| discriminate].
  cbn [and_then].
  destruct (dict_get "totalParts" fields) as [tp |] eqn:Htp;
    [| discriminate].
  cbn [and_then].
  destruct (dict_get "clientToken" fields) as [ct |] eqn:Hct;
    [| discriminate].
  cbn [and_then]. rewrite Huid. cbn [and_then].
  intros [= <- <- <-]. repeat split; eauto.
Qed.

(** Part uploads are the PUT requests of a run, the abort is its only
    DELETE. *)
Lemma filter_puts (cx : exchange) (puts tail : list exchange) :
  is_put cx = false ->
  Forall (fun x => method (fst x) = "PUT") puts ->
  Forall (fun x => is_put x = false) tail ->
  filter is_put ([cx] ++ puts ++ tail) = puts.
Proof.
  intros Hcx Hputs Htail. cbn [app filter]. rewrite Hcx.
  rewrite filter_app.
  replace (filter is_put tail) with (@nil exchange).
  - rewrite app_nil_r. induction Hputs as [| x l Hx _ IH]; [reflexivity |].
    cbn [filter]. unfold is_put at 1. rewrite Hx. cbn. now rewrite IH.
  - induction Htail as [| x l Hx _ IH]; [reflexivity |].
    cbn [filter]. now rewrite Hx.
Qed.

Lemma filter_deletes (cx : exchange) (puts tail : list exchange) :
  is_delete cx = false ->
  Forall (fun x => method (fst x) = "PUT") puts ->
  filter is_delete ([cx] ++ puts ++ tail) = filter is_delete tail.
Proof.
  intros Hcx Hputs. cbn [app filter]. rewrite Hcx.
  rewrite filter_app.
  replace (filter is_delete puts) with (@nil exchange); [reflexivity |].
  induction Hputs as [| x l Hx _ IH]; [reflexivity |].
  cbn [filter]. unfold is_delete at 1. rewrite Hx. cbn. exact IH.
Qed.

(** ** A part whose handling raises

    Whatever makes the loop raise at a part (a failed request, a rejected
    part, a malformed or degenerate acknowledgement), the upload is
    aborted once and the exception is what [upload_file] surfaces. *)
Lemma part_exception_aborts (W : world) (self : MultipartUploader)
    (file_path resource_name : string) (r : result string) (s' : state) :
  upload_file W self file_path resource_name initial = (r, s') ->
  forall (i : nat) (x : exchange) (e : exn),
    nth_error (filter is_put (exchanges s')) i = Some x ->
    part_result (1 + Z.of_nat i) (snd x) = Raise e ->
    r = Raise (surfaced e) /\
    exists cx upload_info client_token upload_id ax,
      nth_error (exchanges s') 0 = Some cx /\
      session_result (snd cx) = Ok (upload_info, client_token, upload_id) /\
      filter is_delete (exchanges s') = [ax] /\
      fst ax = abort_request W self 3 upload_id resource_name.
Proof.
  intros Hrun i x e Hnth Hres.
  apply upload_file_outcome in Hrun.
  destruct Hrun as
    [e0 s' Hpre Hx
    | e0 s' Hpre Hsess Hx
    | info ct uid puts e0 s' Hpre Hsess Hphase ax Hx Ht Hout
    | info ct uid puts parts e0 n s' Hpre Hsess Hphase qx Hwhy ax Hx Ht Hout
    | info ct uid puts parts c s' Hpre Hsess Hphase qx Hcomp Hsum Hx];
    cbn [exchanges initial app] in Hx.
  - rewrite Hx in Hnth. destruct i; discriminate.
  - rewrite Hx in Hnth. destruct i; discriminate.
  - pose proof (parts_phase_requests _ _ _ _ _ _ _ Hphase) as Hputs.
    assert (Hputs' : Forall (fun y => method (fst y) = "PUT") puts)
      by (eapply Forall_impl; [| exact Hputs]; intros y [Hy _]; exact Hy).
    rewrite Hx in Hnth.
    change (?a :: puts ++ [ax]) with ([a] ++ puts ++ [ax]) in Hnth.
    rewrite filter_puts in Hnth;
      [| reflexivity | assumption | repeat constructor].
    pose proof (parts_phase_raise _ _ _ _ _ _ _ Hphase i x e Hnth Hres) as He.
    injection He as ->. split; [reflexivity |].
    eexists _, info, ct, uid, ax. rewrite Hx.
    split; [reflexivity |]. split; [exact Hsess |].
    split; [| reflexivity].
    change (?a :: puts ++ [ax]) with ([a] ++ puts ++ [ax]).
    rewrite filter_deletes; [reflexivity | reflexivity | assumption].
  - pose proof (parts_phase_requests _ _ _ _ _ _ _ Hphase) as Hputs.
    assert (Hputs' : Forall (fun y => method (fst y) = "PUT") puts)
      by (eapply Forall_impl; [| exact Hputs]; intros y [Hy _]; exact Hy).
    rewrite Hx in Hnth.
    change (?a :: puts ++ [qx; ax]) with ([a] ++ puts ++ [qx; ax]) in Hnth.
    rewrite filter_puts in Hnth;
      [| reflexivity | assumption | repeat constructor].
    pose proof (parts_phase_raise _ _ _ _ _ _ _ Hphase i x e Hnth Hres).
    discriminate.
  - pose proof (parts_phase_requests _ _ _ _ _ _ _ Hphase) as Hputs.
    assert (Hputs' : Forall (fun y => method (fst y) = "PUT") puts)
      by (eapply Forall_impl; [| exact Hputs]; intros y [Hy _]; exact Hy).
    rewrite Hx in Hnth.
    change (?a :: puts ++ [qx]) with ([a] ++ puts ++ [qx]) in Hnth.
    rewrite filter_puts in Hnth;
      [| reflexivity | assumption | repeat constructor].
    pose proof (parts_phase_raise _ _ _ _ _ _ _ Hphase i x e Hnth Hres).
    discriminate.
Qed.

Lemma CHUNK_SIZE_pos : 0 < CHUNK_SIZE.
Proof. reflexivity. Qed.

Lemma read_spec (f : list byte) :
  forall size : Z,
    0 <= size ->
    read size f = (firstn (Z.to_nat size) f, skipn (Z.to_nat size) f).
Proof.
  induction f as [| b f IH]; intros size Hsize.
  - cbn. now rewrite firstn_nil, skipn_nil.
  - cbn [read]. destruct (size <=? 0) eqn:Hle.
    + apply Z.leb_le in Hle. replace size with 0 by lia. reflexivity.
    + apply Z.leb_gt in Hle. rewrite IH by lia.
      replace (Z.to_nat size) with (S (Z.to_nat (size - 1))) by lia.
      reflexivity.
Qed.

Lemma len_nil_inv (f : list byte) : len f <= 0 -> f = [].
Proof.
  unfold len. destruct f; [reflexivity | cbn [List.length]; lia].
Qed.

Lemma chunks_nil (n : nat) : chunks n [] = [].
Proof. destruct n; reflexivity. Qed.

Lemma expected_lengths_zero : expected_lengths 0 = [].
Proof. reflexivity. Qed.

Lemma expected_lengths_short (size : Z) :
  0 < size < CHUNK_SIZE -> expected_lengths size = [size].
Proof.
  intros H. unfold expected_lengths.
  rewrite Z.div_small, Z.mod_small by lia.
  destruct (size =? 0) eqn:E; [apply Z.eqb_eq in E; lia | reflexivity].
Qed.

Lemma expected_lengths_step (size : Z) :
  CHUNK_SIZE <= size ->
  expected_lengths size = CHUNK_SIZE :: expected_lengths (size - CHUNK_SIZE).
Proof.
  intros H. pose proof CHUNK_SIZE_pos as Hpos.
  assert (Hdiv : size / CHUNK_SIZE = (size - CHUNK_SIZE) / CHUNK_SIZE + 1).
  { rewrite <- Z.div_add by lia. f_equal. lia. }
  assert (Hmod : size mod CHUNK_SIZE = (size - CHUNK_SIZE) mod CHUNK_SIZE).
  { rewrite <- (Z.mod_add (size - CHUNK_SIZE) 1) by lia. f_equal. lia. }
  assert (0 <= (size - CHUNK_SIZE) / CHUNK_SIZE)
    by (apply Z.div_pos; lia).
  unfold expected_lengths. rewrite Hdiv, Hmod.
  replace (Z.to_nat ((size - CHUNK_SIZE) / CHUNK_SIZE + 1))
    with (S (Z.to_nat ((size - CHUNK_SIZE) / CHUNK_SIZE))) by lia.
  reflexivity.
Qed.

(** Read with enough iterations, the chunks have the expected lengths
    and make up the file. *)
Lemma chunks_spec (n : nat) :
  forall f : list byte,
    len f <= Z.of_nat n * CHUNK_SIZE ->
    map len (chunks n f) = expected_lengths (len f) /\
    List.concat (chunks n f) = f.
Proof.
  pose proof CHUNK_SIZE_pos as Hpos.
  induction n as [| n IH]; intros f Hlen.
  - rewrite (len_nil_inv f) by lia. split; reflexivity.
  - cbn [chunks]. rewrite read_spec by lia.
    destruct (firstn (Z.to_nat CHUNK_SIZE) f) as [| b chunk] eqn:Hchunk.
    + assert (Hf : f = []).
      { destruct f; [reflexivity |].
        replace (Z.to_nat CHUNK_SIZE) with (S (Z.to_nat (CHUNK_SIZE - 1)))
          in Hchunk by lia.
        discriminate. }
      subst f. split; reflexivity.
    + rewrite <- Hchunk.
      pose proof (firstn_skipn (Z.to_nat CHUNK_SIZE) f) as Hsplit.
      assert (Hfirst : len (firstn (Z.to_nat CHUNK_SIZE) f)
                       = Z.min CHUNK_SIZE (len f)).
      { unfold len. rewrite length_firstn. lia. }
      assert (Hrest : len (skipn (Z.to_nat CHUNK_SIZE) f)
                      = len f - Z.min CHUNK_SIZE (len f)).
      { unfold len. rewrite length_skipn. lia. }
      destruct (IH (skipn (Z.to_nat CHUNK_SIZE) f)) as [IHlen IHcat];
        [lia |].
      cbn [map List.concat]. rewrite IHlen, IHcat, Hsplit, Hfirst, Hrest.
      split; [| reflexivity].
      destruct (Z_le_gt_dec CHUNK_SIZE (len f)) as [Hfull | Hshort].
      * rewrite Z.min_l by lia. symmetry. now apply expected_lengths_step.
      * rewrite Z.min_r by lia. rewrite Z.sub_diag, expected_lengths_zero.
        symmetry. apply expected_lengths_short.
        assert (0 < len f); [| lia].
        unfold len. destruct f; [discriminate | cbn [List.length]; lia].
Qed.

Lemma ceil_div_spec (size : Z) :
  0 <= size ->
  ceil_div size CHUNK_SIZE =
  size / CHUNK_SIZE + (if size mod CHUNK_SIZE =? 0 then 0 else 1).
Proof.
  intros Hsize. pose proof CHUNK_SIZE_pos as Hpos. unfold ceil_div.
  pose proof (Z.div_mod size CHUNK_SIZE ltac:(lia)) as Hdm.
  pose proof (Z.mod_pos_bound size CHUNK_SIZE Hpos) as Hm.
  destruct (size mod CHUNK_SIZE =? 0) eqn:E.
  - apply Z.eqb_eq in E. symmetry.
    apply (Z.div_unique _ _ _ (CHUNK_SIZE - 1)); lia.
  - apply Z.eqb_neq in E. symmetry.
    apply (Z.div_unique _ _ _ (size mod CHUNK_SIZE - 1)); lia.
Qed.

Lemma length_expected_lengths (size : Z) :
  0 <= size ->
  Z.of_nat (List.length (expected_lengths size)) = ceil_div size CHUNK_SIZE.
Proof.
  intros Hsize. pose proof CHUNK_SIZE_pos as Hpos.
  rewrite ceil_div_spec by assumption. unfold expected_lengths.
  rewrite length_app, repeat_length.
  assert (0 <= size / CHUNK_SIZE) by (apply Z.div_pos; lia).
  destruct (size mod CHUNK_SIZE =? 0); cbn [List.length]; lia.
Qed.

Lemma len_concat (cs : list (list byte)) :
  fold_right Z.add 0 (map len cs) = len (List.concat cs).
Proof.
  induction cs as [| c cs IH]; [reflexivity |].
  cbn [map fold_right List.concat]. rewrite IH. unfold len.
  rewrite length_app. lia.
Qed.

Lemma acknowledged_part_result (o : outcome) (n : Z) :
  acknowledged o -> exists entry, part_result n o = Ok entry.
Proof.
  intros (d & pn & etag & ub & tb & -> & Hs & Hpn & Hetag & Hub & Htb & Hdiv).
  unfold part_result, getitem. cbn. fold (success_of d).
  rewrite Hs, Hpn, Hetag, Hub, Htb. cbn. rewrite Hdiv. cbn. eauto.
Qed.

Lemma count_from_seq (k : nat) :
  forall a : nat, count_from (Z.of_nat a) k = map Z.of_nat (seq a k).
Proof.
  induction k as [| k IH]; intros a; [reflexivity |].
  cbn [count_from seq map]. f_equal.
  replace (Z.of_nat a + 1) with (Z.of_nat (S a)) by lia. apply IH.
Qed.

(** With a worker that stores every part, the loop sends one request per
    chunk of the file, numbered from [pn] on, and returns. *)
Lemma loop_trace_acknowledged (W : world) (self : MultipartUploader)
    (client_token total_parts : json) h n pn f parts xs r :
  (forall h req, method req = "PUT" -> acknowledged (worker W h req)) ->
  loop_trace W self client_token total_parts h n pn f parts xs r ->
  (exists parts',
     r = Ok parts' /\
     List.length parts' = (List.length parts + List.length xs)%nat) /\
  map (fun x => payload (fst x)) xs = map DataBody (chunks n f) /\
  map (fun x => url (fst x)) xs =
    map (fun i => base_url self +++ part_endpoint total_parts i)
      (count_from pn (List.length (chunks n f))).
Proof.
  intros Hack.
  induction 1 as [h pn f parts | h n pn f f' parts Hread
                 | h n pn f chunk f' parts e0 Hread Hne req o Hpart
                 | h n pn f chunk f' parts entry xs r Hread Hne req o Hpart
                     Htr IH].
  - split; [exists parts; split; [reflexivity | cbn; lia] |].
    split; reflexivity.
  - cbn [chunks]. rewrite Hread.
    split; [exists parts; split; [reflexivity | cbn; lia] |].
    split; reflexivity.
  - destruct (acknowledged_part_result o pn (Hack h req eq_refl))
      as [entry Hentry].
    congruence.
  - destruct IH as ((parts' & -> & Hlen) & Hpay & Hurl).
    cbn [chunks]. rewrite Hread.
    destruct chunk as [| b chunk]; [contradiction |].
    split.
    + exists parts'. split; [reflexivity |].
      rewrite Hlen, length_app. cbn [List.length]. lia.
    + cbn [map List.length count_from fst].
      rewrite Hpay, Hurl. split; reflexivity.
Qed.

(** ** What [complete] receives when nothing is cut short

    For a source that yields every announced chunk and a worker that
    echoes the number of the part it stored, the list handed to
    [complete_upload] has one entry per part, numbered [1..totalParts]
    in ascending order. *)

Lemma echoes_part_result (n : Z) (o : outcome) :
  echoes n o ->
  exists entry,
    part_result n o = Ok entry /\ entry_number entry = Some (JInt n).
Proof.
  intros (d & etag & ub & tb & -> & Hs & Hpn & Hetag & Hub & Htb & Hdiv).
  unfold part_result, getitem. cbn. fold (success_of d).
  rewrite Hs, Hpn, Hetag, Hub, Htb. cbn. rewrite Hdiv. cbn.
  eexists. split; reflexivity.
Qed.

Lemma loop_trace_echoed (W : world) (self : MultipartUploader)
    (client_token total_parts : json) h n pn f parts xs r :
  (forall h q chunk,
     echoes q (worker W h (part_request self client_token total_parts
                             q chunk))) ->
  loop_trace W self client_token total_parts h n pn f parts xs r ->
  exists entries,
    r = Ok (parts ++ entries) /\
    map entry_number entries =
      map (fun i => Some (JInt i))
        (count_from pn (List.length (chunks n f))).
Proof.
  intros Hecho.
  induction 1 as [h pn f parts | h n pn f f' parts Hread
                 | h n pn f chunk f' parts e0 Hread Hne req o Hpart
                 | h n pn f chunk f' parts entry xs r Hread Hne req o Hpart
                     Htr IH].
  - exists []. rewrite app_nil_r. split; reflexivity.
  - exists []. rewrite app_nil_r. cbn [chunks]. rewrite Hread.
    split; reflexivity.
  - destruct (echoes_part_result pn o (Hecho h pn chunk))
      as (entry & Hentry & _).
    congruence.
  - destruct IH as (entries & -> & Hnumbers).
    destruct (echoes_part_result pn o (Hecho h pn chunk))
      as (entry' & Hentry & Hnumber).
    assert (entry' = entry) as -> by congruence.
    exists (entry :: entries). rewrite <- app_assoc. cbn [app].
    split; [reflexivity |].
    cbn [chunks]. rewrite Hread.
    destruct chunk as [| b chunk]; [contradiction |].
    cbn [map List.length count_from]. rewrite Hnumber, Hnumbers.
    reflexivity.
Qed.

Lemma every_part_recorded_in_order (W : world) (self : MultipartUploader)
    (file_path : string) (client_token : json) (upload_info : dict)
    (content : list byte) (total_parts : Z)
    (s : state) (r : result (list json)) (s' : state) :
  open_rb W = inr content ->
  dict_get "totalParts" upload_info = Some (JInt total_parts) ->
  total_parts = ceil_div (len content) CHUNK_SIZE ->
  (forall h q chunk,
     echoes q (worker W h (part_request self client_token
                             (JInt total_parts) q chunk))) ->
  upload_file_parts W self file_path client_token upload_info s = (r, s') ->
  exists parts,
    r = Ok parts /\
    map entry_number parts =
      map (fun i => Some (JInt i)) (part_numbers total_parts).
Proof.
  intros Hopen Htp Htotal Hecho Hrun.
  pose proof CHUNK_SIZE_pos as Hpos.
  assert (Hsize : 0 <= len content) by (unfold len; lia).
  apply upload_file_parts_run in Hrun.
  destruct Hrun as (_ & puts & Hx & Hphase).
  destruct Hphase as [e He | tp content' stop puts r Htp' Hopen' Hstop Htr].
  { unfold getitem, open_file in He. rewrite Htp, Hopen in He.
    discriminate. }
  unfold getitem in Htp'. rewrite Htp in Htp'. injection Htp' as <-.
  unfold open_file in Hopen'. rewrite Hopen in Hopen'.
  injection Hopen' as <-.
  cbn in Hstop. injection Hstop as <-.
  replace (total_parts + 1 - 1) with total_parts in Htr by lia.
  destruct (loop_trace_echoed _ _ _ _ _ _ _ _ _ _ _ Hecho Htr)
    as (entries & -> & Hnumbers).
  destruct (chunks_spec (Z.to_nat total_parts) content) as [Hlens _].
  { rewrite Htotal, ceil_div_spec by assumption.
    pose proof (Z.div_mod (len content) CHUNK_SIZE ltac:(lia)) as Hdm.
    pose proof (Z.mod_pos_bound (len content) CHUNK_SIZE Hpos) as Hm.
    assert (0 <= len content / CHUNK_SIZE) by (apply Z.div_pos; lia).
    destruct (len content mod CHUNK_SIZE =? 0) eqn:E;
      [apply Z.eqb_eq in E | apply Z.eqb_neq in E]; nia. }
  assert (Hcount : List.length (chunks (Z.to_nat total_parts) content)
                   = Z.to_nat total_parts).
  { rewrite <- (length_map len), Hlens.
    apply Nat2Z.inj. rewrite length_expected_lengths by assumption.
    assert (0 <= ceil_div (len content) CHUNK_SIZE); [| lia].
    rewrite ceil_div_spec by assumption.
    assert (0 <= len content / CHUNK_SIZE) by (apply Z.div_pos; lia).
    destruct (len content mod CHUNK_SIZE =? 0); lia. }
  exists entries. split; [reflexivity |].
  rewrite Hnumbers, Hcount. unfold part_numbers.
  rewrite <- (count_from_seq (Z.to_nat total_parts) 1). reflexivity.
Qed.

(** What every issued token holds; its expiry is 3600 seconds after the
    issue time when both clock readings fall in the same second. *)
Lemma backend_token_contents (W : world) (self : MultipartUploader)
    (action : string) (s : state) :
  fst (_generate_backend_jwt W self action s)
  = Ok (JwtEncode
          (JDict [("type", JStr "backend");
                  ("action", JStr action);
                  ("iat", JInt (py_int (clock W (ticks s))));
                  ("exp", JInt (py_int (clock W (S (ticks s))) + 3600))])
          (jwt_secret self) "HS256").
Proof. reflexivity. Qed.

Lemma backend_token_expiry_same_second (W : world)
    (self : MultipartUploader) (action : string) (s : state) :
  py_int (clock W (S (ticks s))) = py_int (clock W (ticks s)) ->
  fst (_generate_backend_jwt W self action s)
  = Ok (JwtEncode
          (JDict [("type", JStr "backend");
                  ("action", JStr action);
                  ("iat", JInt (py_int (clock W (ticks s))));
                  ("exp", JInt (py_int (clock W (ticks s)) + 3600))])
          (jwt_secret self) "HS256").
Proof. intros H. rewrite backend_token_contents, H. reflexivity. Qed.

(** * Properties of the upload workflow *)

(** C1.  When a part upload fails after the session was created (the
    request errors or the worker answers without success), the caller of
    [upload_file] gets the error of that part upload, and the run holds
    exactly one abort request, addressed to the session's upload id and to
    the resource. *)
Theorem failed_part_aborts_once (W : world) (self : MultipartUploader)
    (file_path resource_name : string) (r : result string) (s' : state) :
  upload_file W self file_path resource_name initial = (r, s') ->
  forall (i : nat) (x : exchange) (e : exn),
    nth_error (filter is_put (exchanges s')) i = Some x ->
    call_fails (part_rejection (1 + Z.of_nat i)) (snd x) e ->
    r = Raise e /\
    exists cx upload_info upload_id ax,
      nth_error (exchanges s') 0 = Some cx /\
      snd cx = Responded (mkResponse None (inr (JDict upload_info))) /\
      dict_get "uploadId" upload_info = Some upload_id /\
      filter is_delete (exchanges s') = [ax] /\
      url (fst ax) =
        base_url self +++ "/upload/abort/" +++ py_str upload_id
          +++ "?fileId=" +++ resource_name.
Proof.
  intros Hrun i x e Hnth Hfail.
  pose proof (call_fails_part _ _ _ Hfail) as Hres.
  destruct (part_exception_aborts _ _ _ _ _ _ Hrun i x e Hnth Hres)
    as (Hr & cx & info & ct & uid & ax & Hcx & Hsess & Hdel & Hax).
  split.
  - rewrite Hr. destruct Hfail; reflexivity.
  - apply session_result_ok in Hsess.
    destruct Hsess as (Ho & _ & Huid & _).
    exists cx, info, uid, ax. rewrite Hax. repeat split; assumption.
Qed.

Lemma failed_part_aborts_once_witness :
  fst (Scenario.run [Scenario.created 1; Scenario.unavailable;
                     Scenario.unavailable])
  = Raise (UploadError
             "Request failed: 503 Server Error: Service Unavailable").
Proof.
  refine (proj1 (failed_part_aborts_once _ _ _ _ _ _
                   (surjective_pairing _) 0%nat
                   (_, Scenario.unavailable) _ _
                   (fails_transport _ _))).
  vm_compute. reflexivity.
Defined.

(** C2, on a source shorter than the announced parts: the file had 6 MiB
    when its size was taken and three bytes when it was read.  The worker
    announces two parts; the loop stops at the empty read, reports that
    all parts were uploaded, and [complete] is called with the entry of
    part 1 alone.  [upload_file] returns the file URL. *)
Theorem truncated_source_is_completed_with_a_part_missing :
  let run :=
    upload_file
      (Scenario.shrunk_world [Scenario.created 2; Scenario.stored 1 3;
                              Scenario.assembled])
      Scenario.uploader "photo.jpg" "my-image" initial in
  fst run = Ok "http://localhost:8787/file/my-image" /\
  map (fun x => (method (fst x), url (fst x), payload (fst x)))
    (exchanges (snd run))
  = [("POST", "http://localhost:8787/upload/create",
      JsonBody (JDict [("id", JStr "my-image");
                       ("fileSize", JInt 6291456);
                       ("mimeType", JStr "application/octet-stream")]));
     ("PUT", "http://localhost:8787/upload/part/1",
      DataBody Scenario.three_bytes);
     ("POST", "http://localhost:8787/upload/complete?fileId=my-image",
      JsonBody
        (JDict [("uploadId", JStr "upload-1");
                ("parts",
                 JList [JDict [("partNumber", JInt 1);
                               ("etag", JStr "etag-1")]])]))] /\
  nth_error (stdout (snd run)) 7 = Some "All parts uploaded successfully!".
Proof. vm_compute. repeat split. Qed.

(** C3.  For a file of [S] bytes whose create response announced
    [totalParts = ceil(S / C)], with [C] = 5 MiB, and a worker that stores
    every part, [upload_file_parts] returns after sending chunks whose
    lengths are [C, ..., C, S mod C] (no short chunk when [C] divides
    [S]); they add up to [S] and are the bytes of the file in order.  The
    requests are numbered [1..totalParts], one request per number, and
    ["?isLast=true"] is on the request numbered [totalParts] and on no
    other. *)
Theorem chunks_partition_the_file (W : world) (self : MultipartUploader)
    (file_path : string) (client_token : json) (upload_info : dict)
    (content : list byte) (total_parts : Z)
    (s : state) (r : result (list json)) (s' : state) :
  open_rb W = inr content ->
  dict_get "totalParts" upload_info = Some (JInt total_parts) ->
  total_parts = ceil_div (len content) CHUNK_SIZE ->
  (forall h req, method req = "PUT" -> acknowledged (worker W h req)) ->
  upload_file_parts W self file_path client_token upload_info s = (r, s') ->
  exists (puts : list exchange) (sent : list (list byte)),
    exchanges s' = exchanges s ++ puts /\
    (exists parts,
       r = Ok parts /\ Z.of_nat (List.length parts) = total_parts) /\
    map (fun x => payload (fst x)) puts = map DataBody sent /\
    map len sent = expected_lengths (len content) /\
    fold_right Z.add 0 (map len sent) = len content /\
    List.concat sent = content /\
    map (fun x => url (fst x)) puts =
      map (fun i =>
             base_url self +++
               (if i =? total_parts
                then ("/upload/part/" +++ str_of_int i) +++ "?isLast=true"
                else "/upload/part/" +++ str_of_int i))
        (part_numbers total_parts).
Proof.
  intros Hopen Htp Htotal Hack Hrun.
  pose proof CHUNK_SIZE_pos as Hpos.
  assert (Hsize : 0 <= len content) by (unfold len; lia).
  assert (Hnonneg : 0 <= total_parts).
  { subst total_parts. rewrite ceil_div_spec by assumption.
    assert (0 <= len content / CHUNK_SIZE) by (apply Z.div_pos; lia).
    destruct (len content mod CHUNK_SIZE =? 0); lia. }
  apply upload_file_parts_run in Hrun.
  destruct Hrun as (_ & puts & Hx & Hphase).
  destruct Hphase as [e He | tp content' stop puts r Htp' Hopen' Hstop Htr].
  { unfold getitem, open_file in He. rewrite Htp, Hopen in He.
    discriminate. }
  unfold getitem in Htp'. rewrite Htp in Htp'. injection Htp' as <-.
  unfold open_file in Hopen'. rewrite Hopen in Hopen'.
  injection Hopen' as <-.
  cbn in Hstop. injection Hstop as <-.
  replace (total_parts + 1 - 1) with total_parts in Htr by lia.
  destruct (loop_trace_acknowledged _ _ _ _ _ _ _ _ _ _ _ Hack Htr)
    as ((parts & -> & Hparts) & Hpay & Hurl).
  destruct (chunks_spec (Z.to_nat total_parts) content) as [Hlens Hcat].
  { rewrite Htotal, ceil_div_spec by assumption.
    pose proof (Z.div_mod (len content) CHUNK_SIZE ltac:(lia)) as Hdm.
    pose proof (Z.mod_pos_bound (len content) CHUNK_SIZE Hpos) as Hm.
    assert (0 <= len content / CHUNK_SIZE) by (apply Z.div_pos; lia).
    destruct (len content mod CHUNK_SIZE =? 0) eqn:E;
      [apply Z.eqb_eq in E | apply Z.eqb_neq in E]; nia. }
  assert (Hcount : List.length (chunks (Z.to_nat total_parts) content)
                   = Z.to_nat total_parts).
  { rewrite <- (length_map len), Hlens.
    apply Nat2Z.inj. rewrite length_expected_lengths by assumption. lia. }
  exists puts, (chunks (Z.to_nat total_parts) content).
  split; [exact Hx |].
  split.
  { exists parts. split; [reflexivity |].
    rewrite Hparts. cbn [List.length Nat.add].
    pose proof (f_equal (@List.length _) Hurl) as Hl.
    rewrite !length_map, Hcount, (count_from_seq _ 1), length_map,
      length_seq in Hl.
    transitivity (Z.of_nat (Z.to_nat total_parts));
      [f_equal; exact Hl | lia]. }
  split; [exact Hpay |].
  split; [exact Hlens |].
  split; [rewrite len_concat, Hcat; reflexivity |].
  split; [exact Hcat |].
  rewrite Hurl, Hcount. unfold part_numbers.
  rewrite <- (count_from_seq (Z.to_nat total_parts) 1). reflexivity.
Qed.

Lemma chunks_partition_the_file_witness :
  exists sent : list (list byte),
    map len sent = [3] /\ List.concat sent = Scenario.three_bytes.
Proof.
  destruct (chunks_partition_the_file Scenario.storing_world
              Scenario.uploader "photo.jpg" (JStr "client-token")
              [("totalParts", JInt 1)] Scenario.three_bytes 1 initial
              _ _ eq_refl eq_refl eq_refl
              ltac:(intros h req _;
                    exists [("success", JBool true); ("partNumber", JInt 1);
                            ("etag", JStr "etag-1");
                            ("uploadedBytes", JInt 3);
                            ("totalBytes", JInt 3)],
                      (JInt 1), (JStr "etag-1"), (JInt 3), (JInt 3);
                    repeat split; vm_compute; reflexivity)
              (surjective_pairing _))
    as (puts & sent & _ & _ & _ & Hlens & _ & Hcat & _).
  exists sent. split; [exact Hlens | exact Hcat].
Defined.

(** C4, at a clock whose two readings straddle a second: the token issued
    for ["create"] carries [iat] 1730000000 and [exp] 1730003601, which
    is 3601 seconds, not 3600, after the issue time. *)
Theorem expiry_is_taken_from_a_second_clock_reading :
  fst (_generate_backend_jwt Scenario.straddling_world Scenario.uploader
         "create" initial)
  = Ok (JwtEncode
          (JDict [("type", JStr "backend");
                  ("action", JStr "create");
                  ("iat", JInt 1730000000);
                  ("exp", JInt (1730000000 + 3601))])
          "your-jwt-secret-here" "HS256").
Proof. vm_compute. reflexivity. Qed.

(** C5.  When the create call fails (the request errors or the worker
    answers without success), [upload_file] raises that error and the
    create call is the only request of the run: no part is sent and
    nothing is aborted. *)
Theorem failed_create_sends_nothing_else (W : world)
    (self : MultipartUploader) (file_path resource_name : string)
    (r : result string) (s' : state) :
  upload_file W self file_path resource_name initial = (r, s') ->
  forall (x : exchange) (e : exn),
    nth_error (exchanges s') 0 = Some x ->
    call_fails create_rejection (snd x) e ->
    r = Raise e /\
    exchanges s' = [x] /\
    method (fst x) = "POST" /\
    url (fst x) = base_url self +++ "/upload/create".
Proof.
  intros Hrun x e Hnth Hfail.
  pose proof (call_fails_create _ _ Hfail) as Hres.
  apply upload_file_outcome in Hrun.
  destruct Hrun as
    [e0 s' Hpre Hx
    | e0 s' Hpre Hsess Hx
    | info ct uid puts e0 s' Hpre Hsess Hphase ax Hx Ht Hout
    | info ct uid puts parts e0 n s' Hpre Hsess Hphase qx Hwhy ax Hx Ht Hout
    | info ct uid puts parts c s' Hpre Hsess Hphase qx Hcomp Hsum Hx];
    cbn [exchanges initial app] in Hx; rewrite Hx in Hnth |- *;
    try discriminate; injection Hnth as <-;
    cbv zeta in Hsess; cbn [snd exchanges ticks initial] in Hsess, Hres;
    try congruence.
  assert (e0 = e) as -> by congruence.
  split; [destruct Hfail; reflexivity |].
  repeat split.
Qed.

Lemma failed_create_sends_nothing_else_witness :
  fst (Scenario.run [Scenario.reply Scenario.refusal])
  = Raise (UploadError "Failed to create upload: quota exceeded").
Proof.
  refine (proj1 (failed_create_sends_nothing_else _ _ _ _ _ _
                   (surjective_pairing _)
                   (_, Scenario.reply Scenario.refusal) _ _
                   (fails_rejected _ Scenario.refusal _))).
  - vm_compute. reflexivity.
  - reflexivity.
Defined.

(** C6.  When the abort request fails, for whatever reason,
    [abort_upload] still returns: the failure is printed as a warning and
    nothing is raised, so the caller of [upload_file] is given the failure
    that led to the abort.  [abort_upload] returns normally in every
    state. *)
Theorem abort_failure_is_only_a_warning (W : world)
    (self : MultipartUploader) (file_path resource_name : string)
    (s : state) (file_size : Z) (upload_info : dict)
    (client_token upload_id : json) (s1 : state) (e : exn) (s2 : state)
    (abort_error : exn) :
  open_session W self file_path resource_name
    (mkState (S (ticks s)) (exchanges s) (stdout s))
    = (Ok (file_size, upload_info, client_token, upload_id), s1) ->
  transfer W self (clock W (ticks s)) file_path resource_name file_size
    upload_info client_token upload_id s1 = (Raise e, s2) ->
  request_result
    (worker W (exchanges s2)
       (abort_request W self (ticks s2) upload_id resource_name))
    = Raise abort_error ->
  exists s3,
    abort_upload W self upload_id resource_name s2 = (Ok tt, s3) /\
    stdout s3 =
      stdout s2 ++ ["Aborting upload...";
                    "Warning: Failed to abort upload: "
                      +++ str_exn abort_error] /\
    upload_file W self file_path resource_name s = (Raise (surfaced e), s3) /\
    (forall m, e = UploadError m -> surfaced e = e) /\
    (forall upload_id' file_id' s0,
       fst (abort_upload W self upload_id' file_id' s0) = Ok tt).
Proof.
  intros Hsession Htransfer Habort.
  eexists. split; [apply abort_upload_run |].
  cbn [stdout]. rewrite Habort.
  split; [reflexivity |].
  split.
  - rewrite upload_file_run, Hsession, Htransfer, abort_upload_run.
    cbn [snd]. rewrite Habort. reflexivity.
  - split.
    + intros m ->. reflexivity.
    + intros uid fid s0. rewrite abort_upload_run. reflexivity.
Qed.

Lemma abort_failure_is_only_a_warning_witness :
  Scenario.run [Scenario.created 1; Scenario.unavailable;
                Scenario.unavailable]
  = (Raise (UploadError
              "Request failed: 503 Server Error: Service Unavailable"),
     mkState 5
       (exchanges (snd (Scenario.run [Scenario.created 1;
                                      Scenario.unavailable;
                                      Scenario.unavailable])))
       ["File: photo.jpg"; "MIME type: application/octet-stream";
        "Creating upload for file ID: my-image";
        "Upload created successfully. Upload ID: upload-1";
        "Total parts: 1"; "Starting upload of 1 parts...";
        "Uploading part 1/1 (3 bytes)"; "Aborting upload...";
        "Warning: Failed to abort upload: Request failed: 503 Server Error: Service Unavailable"]).
Proof.
  destruct (abort_failure_is_only_a_warning
              (Scenario.world_of [Scenario.created 1; Scenario.unavailable;
                                  Scenario.unavailable])
              Scenario.uploader "photo.jpg" "my-image" initial
              _ _ _ _ _ _ _ _
              ltac:(vm_compute; reflexivity)
              ltac:(vm_compute; reflexivity)
              ltac:(vm_compute; reflexivity))
    as (s3 & Habort & Hout & Hrun & _).
  rewrite Hrun. f_equal.
  vm_compute in Habort. injection Habort as <-. reflexivity.
Defined.

(** C7.  Every request of a run carries the token of its own phase: the
    create call a backend token minted for ["create"], the complete call
    one minted for ["complete"], the abort call one minted for ["abort"]
    from the last two clock readings of the run (so minted for that call,
    after every other token), and each part upload the ["clientToken"]
    of the create response, which is not a token minted by the client. *)
Theorem every_call_uses_the_token_of_its_phase (W : world)
    (self : MultipartUploader) (file_path resource_name : string)
    (r : result string) (s' : state) :
  upload_file W self file_path resource_name initial = (r, s') ->
  forall x : exchange,
    In x (exchanges s') ->
    (method (fst x) = "POST" /\
     url (fst x) = base_url self +++ "/upload/create" /\
     exists k, bearer (fst x) = minted W self k "create") \/
    (method (fst x) = "POST" /\
     url (fst x) =
       base_url self +++ "/upload/complete?fileId=" +++ resource_name /\
     exists k, bearer (fst x) = minted W self k "complete") \/
    (method (fst x) = "DELETE" /\
     exists k, ticks s' = (k + 2)%nat /\
               bearer (fst x) = minted W self k "abort") \/
    (method (fst x) = "PUT" /\
     exists cx upload_info client_token,
       nth_error (exchanges s') 0 = Some cx /\
       snd cx = Responded (mkResponse None (inr (JDict upload_info))) /\
       dict_get "clientToken" upload_info = Some client_token /\
       bearer (fst x) = Opaque client_token /\
       forall payload key algorithm,
         bearer (fst x) <> JwtEncode payload key algorithm).
Proof.
  intros Hrun x Hin.
  apply upload_file_outcome in Hrun.
  assert (Hput : forall cx info ct uid puts h rp rest,
             session_result (snd cx) = Ok (info, ct, uid) ->
             parts_phase W self ct info h puts rp ->
             exchanges s' = cx :: rest ->
             In x puts ->
             method (fst x) = "PUT" /\
             exists cx upload_info client_token,
               nth_error (exchanges s') 0 = Some cx /\
               snd cx = Responded (mkResponse None (inr (JDict upload_info)))
               /\ dict_get "clientToken" upload_info = Some client_token /\
               bearer (fst x) = Opaque client_token /\
               forall payload key algorithm,
                 bearer (fst x) <> JwtEncode payload key algorithm).
  { intros cx info ct uid puts h rp rest Hsess Hphase Hx Hinp.
    apply parts_phase_requests in Hphase.
    rewrite Forall_forall in Hphase. destruct (Hphase x Hinp) as [Hm Hb].
    apply session_result_ok in Hsess. destruct Hsess as (Ho & _ & _ & Hct & _).
    split; [exact Hm |]. exists cx, info, ct. rewrite Hx, Hb.
    repeat split; try assumption. discriminate. }
  destruct Hrun as
    [e0 s' Hpre Hx
    | e0 s' Hpre Hsess Hx
    | info ct uid puts e0 s' Hpre Hsess Hphase ax Hx Ht Hout
    | info ct uid puts parts e0 n s' Hpre Hsess Hphase qx Hwhy ax Hx Ht Hout
    | info ct uid puts parts c s' Hpre Hsess Hphase qx Hcomp Hsum Hx];
    cbn [exchanges initial app] in Hx; rewrite Hx in Hin.
  - destruct Hin.
  - destruct Hin as [<- | []]. left. repeat split. exists 1%nat. reflexivity.
  - destruct Hin as [<- | Hin].
    { left. repeat split. exists 1%nat. reflexivity. }
    apply in_app_or in Hin. destruct Hin as [Hin | [<- | []]].
    + right. right. right. eapply Hput; eassumption.
    + right. right. left. split; [reflexivity |].
      exists 3%nat. split; [exact Ht | reflexivity].
  - destruct Hin as [<- | Hin].
    { left. repeat split. exists 1%nat. reflexivity. }
    apply in_app_or in Hin. destruct Hin as [Hin | [<- | [<- | []]]].
    + right. right. right. eapply Hput; eassumption.
    + right. left. repeat split. exists 3%nat. reflexivity.
    + right. right. left. split; [reflexivity |].
      exists n. split; [rewrite Ht; apply Nat.add_comm | reflexivity].
  - destruct Hin as [<- | Hin].
    { left. repeat split. exists 1%nat. reflexivity. }
    apply in_app_or in Hin. destruct Hin as [Hin | [<- | []]].
    + right. right. right. eapply Hput; eassumption.
    + right. left. repeat split. exists 3%nat. reflexivity.
Qed.

Lemma every_call_uses_the_token_of_its_phase_witness :
  Forall (fun x => bearer (fst x) <> Opaque JNull)
    (exchanges (snd (Scenario.run [Scenario.created 1; Scenario.stored 1 3;
                                   Scenario.unavailable;
                                   Scenario.unavailable]))).
Proof.
  apply Forall_forall. intros x Hin.
  destruct (every_call_uses_the_token_of_its_phase _ _ _ _ _ _
              (surjective_pairing _) x Hin)
    as [(_ & _ & k & Hb) | [(_ & _ & k & Hb) | [(_ & k & _ & Hb)
       | (_ & cx & info & ct & Hcx & Ho & Hct & Hb & _)]]];
    rewrite Hb; [discriminate | discriminate | discriminate |].
  eassert (Hfirst :
             nth_error
               (exchanges
                  (snd (Scenario.run [Scenario.created 1;
                                      Scenario.stored 1 3;
                                      Scenario.unavailable;
                                      Scenario.unavailable]))) 0
             = Some (_, Scenario.created 1))
    by (vm_compute; reflexivity).
  rewrite Hfirst in Hcx. injection Hcx as <-. cbn [snd] in Ho.
  injection Ho as <-.
  change (Some (JStr "client-token") = Some ct) in Hct.
  injection Hct as <-. discriminate.
Defined.

(** C8, as the program has it.  When the create response has a true
    ["success"] but lacks ["uploadId"], ["totalParts"] or
    ["clientToken"], the lookup of the first missing key (in that order)
    raises a [KeyError] before the abort-protected block is entered;
    [upload_file] re-raises it as an [UploadError] whose message is
    ["Unexpected error: "] followed by the quoted key, and the create call
    stays the only request of the run: nothing is aborted. *)
Theorem missing_session_field_fails_without_abort (W : world)
    (self : MultipartUploader) (file_path resource_name : string)
    (r : result string) (s' : state) :
  upload_file W self file_path resource_name initial = (r, s') ->
  forall (x : exchange) (d : dict),
    nth_error (exchanges s') 0 = Some x ->
    snd x = Responded (mkResponse None (inr (JDict d))) ->
    truthy (success_of d) = true ->
    dict_get "uploadId" d = None \/ dict_get "totalParts" d = None \/
    dict_get "clientToken" d = None ->
    exists key,
      In key ["uploadId"; "totalParts"; "clientToken"] /\
      dict_get key d = None /\
      session_result (snd x) = Raise (KeyError key) /\
      r = Raise (UploadError ("Unexpected error: '" +++ key +++ "'")) /\
      exchanges s' = [x].
Proof.
  intros Hrun x d Hnth Hx Hsucc Hmissing.
  assert (Hkey : exists key,
             In key ["uploadId"; "totalParts"; "clientToken"] /\
             dict_get key d = None /\
             session_result (snd x) = Raise (KeyError key)).
  { rewrite Hx. unfold session_result, create_result, getitem. cbn.
    fold (success_of d). rewrite Hsucc. cbn.
    destruct (dict_get "uploadId" d) as [uid |] eqn:Huid; cbn.
    2:{ exists "uploadId". cbn. auto. }
    destruct (dict_get "totalParts" d) as [tp |] eqn:Htp; cbn.
    2:{ exists "totalParts". cbn. auto. }
    destruct (dict_get "clientToken" d) as [ct |] eqn:Hct; cbn.
    2:{ exists "clientToken". cbn. auto. }
    destruct Hmissing as [H | [H | H]]; discriminate. }
  destruct Hkey as (key & Hin & Hnone & Hsess).
  exists key. split; [exact Hin |]. split; [exact Hnone |].
  split; [exact Hsess |].
  apply upload_file_outcome in Hrun.
  destruct Hrun as
    [e0 s' Hpre Hx'
    | e0 s' Hpre Hsess' Hx'
    | info ct uid puts e0 s' Hpre Hsess' Hphase ax Hx' Ht Hout
    | info ct uid puts parts e0 n s' Hpre Hsess' Hphase qx Hwhy ax Hx' Ht Hout
    | info ct uid puts parts c s' Hpre Hsess' Hphase qx Hcomp Hsum Hx'];
    cbn [exchanges initial app] in Hx'; rewrite Hx' in Hnth |- *;
    try discriminate; injection Hnth as <-;
    cbv zeta in Hsess'; cbn [snd exchanges ticks initial] in Hsess', Hsess;
    try congruence.
  assert (e0 = KeyError key) as -> by congruence.
  split; reflexivity.
Qed.

Lemma missing_session_field_fails_without_abort_witness :
  fst (Scenario.run [Scenario.reply [("success", JBool true);
                                     ("uploadId", JStr "upload-1")]])
  = Raise (UploadError "Unexpected error: 'totalParts'").
Proof.
  destruct (missing_session_field_fails_without_abort _ _ _ _ _ _
              (surjective_pairing
                 (Scenario.run [Scenario.reply
                                  [("success", JBool true);
                                   ("uploadId", JStr "upload-1")]]))
              (_, Scenario.reply [("success", JBool true);
                                  ("uploadId", JStr "upload-1")])
              [("success", JBool true); ("uploadId", JStr "upload-1")]
              ltac:(vm_compute; reflexivity) eq_refl eq_refl
              (or_intror (or_introl eq_refl)))
    as (key & Hin & Hnone & Hsess & Hr & _).
  rewrite Hr.
  destruct Hin as [<- | [<- | [<- | []]]]; [discriminate | | discriminate].
  reflexivity.
Defined.

(** C8, as stated, fails: with a create response that is successful but
    carries no field, what leaves [upload_file] is not the key-lookup
    error but an [UploadError] made from it. *)
Lemma missing_field_error_is_wrapped :
  ~ exists key,
      fst (Scenario.run [Scenario.reply [("success", JBool true)]])
      = Raise (KeyError key).
Proof.
  assert (Hrun : fst (Scenario.run [Scenario.reply [("success", JBool true)]])
                 = Raise (UploadError "Unexpected error: 'uploadId'"))
    by (vm_compute; reflexivity).
  intros [key Hkey]. rewrite Hrun in Hkey. discriminate.
Qed.

(** C9.  A part the worker acknowledges with a true ["success"] does not
    by itself let the loop go on: when the acknowledgement carries the
    part number, the etag and a numeric ["uploadedBytes"] but a
    ["totalBytes"] equal to zero, the progress computation divides by zero
    inside [upload_file_parts], the upload is aborted once and
    [upload_file] fails. *)
Theorem zero_total_bytes_fails_the_upload (W : world)
    (self : MultipartUploader) (file_path resource_name : string)
    (r : result string) (s' : state) :
  upload_file W self file_path resource_name initial = (r, s') ->
  forall (i : nat) (x : exchange) (d : dict)
         (part_number etag uploaded total : json) (n : Z),
    nth_error (filter is_put (exchanges s')) i = Some x ->
    snd x = Responded (mkResponse None (inr (JDict d))) ->
    truthy (success_of d) = true ->
    dict_get "partNumber" d = Some part_number ->
    dict_get "etag" d = Some etag ->
    dict_get "uploadedBytes" d = Some uploaded ->
    as_int uploaded = Some n ->
    dict_get "totalBytes" d = Some total ->
    as_int total = Some 0 ->
    part_result (1 + Z.of_nat i) (snd x)
      = Raise (ZeroDivisionError "division by zero") /\
    r = Raise (UploadError "Unexpected error: division by zero") /\
    exists ax,
      filter is_delete (exchanges s') = [ax] /\
      In ax (exchanges s').
Proof.
  intros Hrun i x d pn etag ub tb n Hnth Hx Hsucc Hpn Hetag Hub Hn Htb Hz.
  assert (Hres : part_result (1 + Z.of_nat i) (snd x)
                 = Raise (ZeroDivisionError "division by zero")).
  { rewrite Hx. unfold part_result, getitem. cbn.
    fold (success_of d). rewrite Hsucc, Hpn, Hetag, Hub, Htb. cbn.
    unfold truediv. rewrite Hn, Hz. reflexivity. }
  split; [exact Hres |].
  destruct (part_exception_aborts _ _ _ _ _ _ Hrun i x _ Hnth Hres)
    as (Hr & cx & info & ct & uid & ax & Hcx & Hsess & Hdel & Hax).
  split; [exact Hr |].
  exists ax. split; [exact Hdel |].
  apply (proj1 (filter_In is_delete ax (exchanges s'))).
  rewrite Hdel. left. reflexivity.
Qed.

Lemma zero_total_bytes_fails_the_upload_witness :
  fst (Scenario.run [Scenario.created 1; Scenario.stored 1 0;
                     Scenario.unavailable])
  = Raise (UploadError "Unexpected error: division by zero").
Proof.
  refine (proj1 (proj2 (zero_total_bytes_fails_the_upload _ _ _ _ _ _
                          (surjective_pairing _) 0%nat
                          (_, Scenario.stored 1 0) _
                          (JInt 1) (JStr "etag-1") (JInt 3) (JInt 0) 3
                          _ eq_refl eq_refl eq_refl eq_refl eq_refl
                          eq_refl eq_refl eq_refl))).
  vm_compute. reflexivity.
Defined.

(** C10.  An exception that leaves [upload_file] is an [UploadError]: the
    exception raised inside is passed on unchanged when it is an
    [UploadError] and otherwise re-raised as an [UploadError] whose
    message is ["Unexpected error: "] followed by its text.  It was
    raised either before the session existed, and then nothing is
    aborted, or during the transfer, and then [abort_upload] has run
    before it is re-raised. *)
Theorem every_escaping_exception_is_an_UploadError (W : world)
    (self : MultipartUploader) (file_path resource_name : string)
    (s : state) (e : exn) (s' : state) :
  upload_file W self file_path resource_name s = (Raise e, s') ->
  (exists msg, e = UploadError msg) /\
  exists e0,
    (forall msg, e0 = UploadError msg -> e = e0) /\
    (is_UploadError e0 = false ->
     e = UploadError ("Unexpected error: " +++ str_exn e0)) /\
    let s0 := mkState (S (ticks s)) (exchanges s) (stdout s) in
    (open_session W self file_path resource_name s0 = (Raise e0, s') \/
     exists file_size upload_info client_token upload_id s1 s2,
       open_session W self file_path resource_name s0
         = (Ok (file_size, upload_info, client_token, upload_id), s1) /\
       transfer W self (clock W (ticks s)) file_path resource_name
         file_size upload_info client_token upload_id s1
         = (Raise e0, s2) /\
       abort_upload W self upload_id resource_name s2 = (Ok tt, s')).
Proof.
  rewrite upload_file_run.
  destruct (open_session _ _ _ _ _) as [[[[[fs info] ct] uid] | e0] s1]
    eqn:Hsession.
  - destruct (transfer _ _ _ _ _ _ _ _ _ _) as [[file_url | e0] s2]
      eqn:Htransfer; [discriminate |].
    intros [= <- <-]. split; [destruct e0; eexists; reflexivity |].
    exists e0. split; [intros m ->; reflexivity |].
    split; [destruct e0; intros; try discriminate; reflexivity |].
    right. exists fs, info, ct, uid, s1, s2.
    split; [exact Hsession |]. split; [exact Htransfer |].
    rewrite abort_upload_run. reflexivity.
  - intros [= <- <-]. split; [destruct e0; eexists; reflexivity |].
    exists e0. split; [intros m ->; reflexivity |].
    split; [destruct e0; intros; try discriminate; reflexivity |].
    left. exact Hsession.
Qed.

Lemma every_escaping_exception_is_an_UploadError_witness :
  exists msg,
    fst (Scenario.run [Scenario.created 1;
                       Scenario.reply [("success", JBool true);
                                       ("partNumber", JInt 1)];
                       Scenario.unavailable])
    = Raise (UploadError msg).
Proof.
  assert (Hrun :
            Scenario.run [Scenario.created 1;
                          Scenario.reply [("success", JBool true);
                                          ("partNumber", JInt 1)];
                          Scenario.unavailable]
            = (Raise (UploadError "Unexpected error: 'etag'"),
               snd (Scenario.run
                      [Scenario.created 1;
                       Scenario.reply [("success", JBool true);
                                       ("partNumber", JInt 1)];
                       Scenario.unavailable])))
    by (vm_compute; reflexivity).
  destruct (every_escaping_exception_is_an_UploadError _ _ _ _ _ _ _ Hrun)
    as [[msg Hmsg] _].
  exists msg. rewrite Hrun. cbn [fst]. rewrite Hmsg. reflexivity.
Defined.

(** * Further properties of a run *)

Lemma session_result_iff (o : outcome) (upload_info : dict)
    (client_token upload_id : json) :
  session_result o = Ok (upload_info, client_token, upload_id) <->
  opens_session o upload_info client_token upload_id.
Proof.
  split.
  - intros H. apply session_result_ok in H.
    destruct H as (Ho & Hs & Huid & Hct & Htp). repeat split; assumption.
  - intros (-> & Hs & Huid & Hct & tp & Htp).
    unfold session_result, create_result, getitem. cbn.
    fold (success_of upload_info). rewrite Hs. cbn.
    rewrite Huid. cbn. rewrite Htp. cbn. rewrite Hct. cbn.
    rewrite Huid. reflexivity.
Qed.

Lemma puts_are_puts (W : world) (self : MultipartUploader)
    client_token upload_info h puts r :
  parts_phase W self client_token upload_info h puts r ->
  Forall (fun y => method (fst y) = "PUT") puts.
Proof.
  intros H. apply parts_phase_requests in H.
  eapply Forall_impl; [| exact H]. intros y [Hy _]. exact Hy.
Qed.

(** The requests of a run come in the order of the protocol: the create
    call, then the part uploads, then at most one complete call, then at
    most one abort call, after which nothing is sent. *)
Theorem requests_follow_the_protocol_order (W : world)
    (self : MultipartUploader) (file_path resource_name : string)
    (r : result string) (s' : state) :
  upload_file W self file_path resource_name initial = (r, s') ->
  exchanges s' = [] \/
  exists cx puts tail,
    exchanges s' = cx :: puts ++ tail /\
    method (fst cx) = "POST" /\
    url (fst cx) = base_url self +++ "/upload/create" /\
    Forall (fun x => method (fst x) = "PUT") puts /\
    (tail = [] \/
     (exists ax, tail = [ax] /\ method (fst ax) = "DELETE") \/
     (exists qx,
        method (fst qx) = "POST" /\
        url (fst qx) =
          base_url self +++ "/upload/complete?fileId=" +++ resource_name /\
        (tail = [qx] \/
         exists ax, tail = [qx; ax] /\ method (fst ax) = "DELETE"))).
Proof.
  intros Hrun. apply upload_file_outcome in Hrun.
  destruct Hrun as
    [e0 s' Hpre Hx
    | e0 s' Hpre Hsess Hx
    | info ct uid puts e0 s' Hpre Hsess Hphase ax Hx Ht Hout
    | info ct uid puts parts e0 n s' Hpre Hsess Hphase qx Hwhy ax Hx Ht Hout
    | info ct uid puts parts c s' Hpre Hsess Hphase qx Hcomp Hsum Hx];
    cbn [exchanges initial app] in Hx.
  - left. exact Hx.
  - right. eexists _, [], []. rewrite Hx.
    repeat split; [constructor | left; reflexivity].
  - right. apply puts_are_puts in Hphase.
    eexists _, puts, [ax]. rewrite Hx.
    repeat split; [assumption |].
    right. left. exists ax. split; reflexivity.
  - right. apply puts_are_puts in Hphase.
    eexists _, puts, [qx; ax]. rewrite Hx.
    repeat split; [assumption |].
    right. right. exists qx. repeat split.
    right. exists ax. split; reflexivity.
  - right. apply puts_are_puts in Hphase.
    eexists _, puts, [qx]. rewrite Hx.
    repeat split; [assumption |].
    right. right. exists qx. repeat split. left. reflexivity.
Qed.

Lemma requests_follow_the_protocol_order_witness :
  exists cx puts tail,
    exchanges (snd (Scenario.run [Scenario.created 1; Scenario.stored 1 3;
                                  Scenario.assembled]))
    = cx :: puts ++ tail /\
    Forall (fun x => method (fst x) = "PUT") puts.
Proof.
  assert (Hlen : List.length
                   (exchanges (snd (Scenario.run [Scenario.created 1;
                                                  Scenario.stored 1 3;
                                                  Scenario.assembled])))
                 = 3%nat) by (vm_compute; reflexivity).
  destruct (requests_follow_the_protocol_order _ _ _ _ _ _
              (surjective_pairing
                 (Scenario.run [Scenario.created 1; Scenario.stored 1 3;
                                Scenario.assembled])))
    as [Hnone | (cx & puts & tail & Hx & _ & _ & Hputs & _)].
  - rewrite Hnone in Hlen. discriminate Hlen.
  - exists cx, puts, tail. split; assumption.
Defined.

(** An abort request is part of a run exactly when [upload_file] raises
    after the create response opened a session. *)
Theorem abort_exactly_when_a_session_fails (W : world)
    (self : MultipartUploader) (file_path resource_name : string)
    (r : result string) (s' : state) :
  upload_file W self file_path resource_name initial = (r, s') ->
  (exists ax, In ax (exchanges s') /\ method (fst ax) = "DELETE") <->
  (exists e, r = Raise e) /\
  (exists cx upload_info client_token upload_id,
     nth_error (exchanges s') 0 = Some cx /\
     opens_session (snd cx) upload_info client_token upload_id).
Proof.
  intros Hrun. apply upload_file_outcome in Hrun.
  destruct Hrun as
    [e0 s' Hpre Hx
    | e0 s' Hpre Hsess Hx
    | info ct uid puts e0 s' Hpre Hsess Hphase ax Hx Ht Hout
    | info ct uid puts parts e0 n s' Hpre Hsess Hphase qx Hwhy ax Hx Ht Hout
    | info ct uid puts parts c s' Hpre Hsess Hphase qx Hcomp Hsum Hx];
    cbn [exchanges initial app] in Hx; rewrite Hx.
  - split.
    + intros (ax & [] & _).
    + intros (_ & cx & info & ct & uid & Hnth & _). discriminate Hnth.
  - split.
    + intros (ax & [<- | []] & Hm). discriminate Hm.
    + intros (_ & cx & info & ct & uid & Hnth & Hopen).
      injection Hnth as <-. apply session_result_iff in Hopen.
      cbv zeta in Hsess. cbn [snd exchanges ticks initial] in Hsess, Hopen.
      congruence.
  - split.
    + intros _. split; [eexists; reflexivity |].
      eexists _, info, ct, uid. split; [reflexivity |].
      apply session_result_iff. exact Hsess.
    + intros _. exists ax. split; [| reflexivity].
      right. apply in_or_app. right. left. reflexivity.
  - split.
    + intros _. split; [eexists; reflexivity |].
      eexists _, info, ct, uid. split; [reflexivity |].
      apply session_result_iff. exact Hsess.
    + intros _. exists ax. split; [| reflexivity].
      right. apply in_or_app. right. right. left. reflexivity.
  - split.
    + intros (ax & Hin & Hm). exfalso.
      destruct Hin as [<- | Hin]; [discriminate Hm |].
      apply in_app_or in Hin. destruct Hin as [Hin | [<- | []]].
      * apply puts_are_puts in Hphase. rewrite Forall_forall in Hphase.
        rewrite (Hphase ax Hin) in Hm. discriminate Hm.
      * discriminate Hm.
    + intros ((e & He) & _). discriminate He.
Qed.

Lemma abort_exactly_when_a_session_fails_witness :
  exists ax,
    In ax (exchanges (snd (Scenario.run [Scenario.created 1;
                                         Scenario.unavailable;
                                         Scenario.unavailable]))) /\
    method (fst ax) = "DELETE".
Proof.
  apply (proj2 (abort_exactly_when_a_session_fails _ _ _ _ _ _
                  (surjective_pairing _))).
  split.
  - eexists. vm_compute. reflexivity.
  - eexists (_, Scenario.created 1), _, _, _.
    split; [vm_compute; reflexivity |].
    repeat split; try reflexivity. eexists. reflexivity.
Defined.

(** When the file does not exist, [upload_file] raises
    ["File not found: <path>"] after reading the clock once; it prints
    nothing and sends no request. *)
Theorem missing_file_sends_nothing (W : world) (self : MultipartUploader)
    (file_path resource_name : string) (s : state) :
  path_exists W = false ->
  upload_file W self file_path resource_name s =
  (Raise (UploadError ("File not found: " +++ file_path)),
   mkState (S (ticks s)) (exchanges s) (stdout s)).
Proof.
  intros Hmissing. rewrite upload_file_run.
  unfold open_session, _get_file_info. rewrite Hmissing. reflexivity.
Qed.

Lemma missing_file_sends_nothing_witness :
  upload_file Scenario.nowhere Scenario.uploader "photo.jpg" "my-image"
    initial
  = (Raise (UploadError "File not found: photo.jpg"), mkState 1 [] []).
Proof.
  exact (missing_file_sends_nothing Scenario.nowhere Scenario.uploader
           "photo.jpg" "my-image" initial eq_refl).
Defined.

(** The first request of a run, when there is one, is the create call:
    it announces the resource name, the size the file system reports and
    the guessed MIME type, ["application/octet-stream"] when none is
    guessed, under a token minted for ["create"]. *)
Theorem create_announces_size_and_type (W : world)
    (self : MultipartUploader) (file_path resource_name : string)
    (r : result string) (s' : state) :
  upload_file W self file_path resource_name initial = (r, s') ->
  forall cx : exchange,
    nth_error (exchanges s') 0 = Some cx ->
    fst cx =
    mkRequest "POST" (base_url self +++ "/upload/create")
      (minted W self 1 "create") []
      (JsonBody
         (JDict [("id", JStr resource_name);
                 ("fileSize", JInt (getsize W));
                 ("mimeType",
                  JStr match guess_type W with
                       | Some t => t
                       | None => "application/octet-stream"
                       end)])).
Proof.
  intros Hrun cx Hnth. apply upload_file_outcome in Hrun.
  destruct Hrun as
    [e0 s' Hpre Hx
    | e0 s' Hpre Hsess Hx
    | info ct uid puts e0 s' Hpre Hsess Hphase ax Hx Ht Hout
    | info ct uid puts parts e0 n s' Hpre Hsess Hphase qx Hwhy ax Hx Ht Hout
    | info ct uid puts parts c s' Hpre Hsess Hphase qx Hcomp Hsum Hx];
    cbn [exchanges initial app] in Hx; rewrite Hx in Hnth;
    [discriminate Hnth | | | |]; injection Hnth as <-; reflexivity.
Qed.

Lemma create_announces_size_and_type_witness :
  exists cx,
    nth_error
      (exchanges (snd (Scenario.run [Scenario.reply Scenario.refusal]))) 0
    = Some cx /\
    payload (fst cx) =
    JsonBody (JDict [("id", JStr "my-image"); ("fileSize", JInt 3);
                     ("mimeType", JStr "application/octet-stream")]).
Proof.
  eexists (_, Scenario.reply Scenario.refusal).
  assert (Hnth : nth_error
                   (exchanges
                      (snd (Scenario.run [Scenario.reply Scenario.refusal])))
                   0
                 = Some (create_request
                           (Scenario.world_of
                              [Scenario.reply Scenario.refusal])
                           Scenario.uploader 1 "my-image" 3
                           "application/octet-stream",
                         Scenario.reply Scenario.refusal))
    by (vm_compute; reflexivity).
  split; [exact Hnth |].
  rewrite (create_announces_size_and_type _ _ _ _ _ _
             (surjective_pairing _) _ Hnth).
  reflexivity.
Defined.

Lemma part_result_ok (n : Z) (o : outcome) (entry : json) :
  part_result n o = Ok entry -> recorded o entry.
Proof.
  unfold part_result, request_result, response_json, get, getitem.
  destruct o as [e | [[m |] [e | data]]]; try (destruct e; discriminate);
    try discriminate.
  cbn [and_then http_error json_body].
  destruct data; try discriminate.
  cbn [and_then]. fold (success_of fields).
  destruct (truthy (success_of fields)) eqn:Hsuccess; [| discriminate].
  cbn [negb].
  destruct (dict_get "partNumber" fields) as [pn |] eqn:Hpn; [| discriminate].
  cbn [and_then].
  destruct (dict_get "etag" fields) as [etag |] eqn:Hetag; [| discriminate].
  cbn [and_then].
  destruct (dict_get "uploadedBytes" fields) as [ub |]; [| discriminate].
  cbn [and_then].
  destruct (dict_get "totalBytes" fields) as [tb |]; [| discriminate].
  cbn [and_then].
  destruct (truediv ub tb) as [[] | e]; [| discriminate].
  cbn [and_then]. intros [= <-].
  exists fields, pn, etag. repeat split; assumption.
Qed.

Lemma loop_trace_recorded (W : world) (self : MultipartUploader)
    (client_token total_parts : json) h n pn f parts xs r :
  loop_trace W self client_token total_parts h n pn f parts xs r ->
  forall parts',
    r = Ok parts' ->
    exists entries,
      parts' = parts ++ entries /\
      Forall2 (fun x entry => recorded (snd x) entry) xs entries.
Proof.
  induction 1 as [h pn f parts | h n pn f f' parts Hread
                 | h n pn f chunk f' parts e0 Hread Hne req o Hpart
                 | h n pn f chunk f' parts entry xs r Hread Hne req o Hpart
                     Htr IH];
    intros parts' Hr.
  - injection Hr as <-. exists []. rewrite app_nil_r. split; constructor.
  - injection Hr as <-. exists []. rewrite app_nil_r. split; constructor.
  - discriminate Hr.
  - destruct (IH parts' Hr) as (entries & -> & Hall).
    exists (entry :: entries). rewrite <- app_assoc. split; [reflexivity |].
    constructor; [| exact Hall].
    apply (part_result_ok pn). exact Hpart.
Qed.

Lemma parts_phase_recorded (W : world) (self : MultipartUploader)
    client_token upload_info h puts parts :
  parts_phase W self client_token upload_info h puts (Ok parts) ->
  Forall2 (fun x entry => recorded (snd x) entry) puts parts.
Proof.
  intros H. inversion H as [| tp content stop puts' r' Htp Hopen Hstop Htr];
    subst.
  destruct (loop_trace_recorded _ _ _ _ _ _ _ _ _ _ _ Htr parts eq_refl)
    as (entries & -> & Hall).
  exact Hall.
Qed.

Lemma complete_result_ok (o : outcome) (completion_info : dict) :
  complete_result o = Ok completion_info ->
  o = Responded (mkResponse None (inr (JDict completion_info))) /\
  truthy (success_of completion_info) = true.
Proof.
  unfold complete_result, request_result, response_json, get.
  destruct o as [e | [[m |] [e | data]]]; try (destruct e; discriminate);
    try discriminate.
  cbn [and_then http_error json_body].
  destruct data; try discriminate.
  cbn [and_then]. fold (success_of fields).
  destruct (truthy (success_of fields)) eqn:Hsuccess; [| discriminate].
  cbn [negb]. intros [= <-]. split; [reflexivity | assumption].
Qed.

Lemma call_fails_complete (o : outcome) (e : exn) :
  call_fails complete_rejection o e ->
  complete_result o = Raise e.
Proof.
  intros [m | m b | d Hd]; unfold complete_result; cbn.
  - reflexivity.
  - reflexivity.
  - fold (success_of d). rewrite Hd. reflexivity.
Qed.

Lemma filter_posts (cx : exchange) (puts tail : list exchange) :
  is_post cx = true ->
  Forall (fun x => method (fst x) = "PUT") puts ->
  filter is_post (cx :: puts ++ tail) = cx :: filter is_post tail.
Proof.
  intros Hcx Hputs. cbn [filter]. rewrite Hcx. f_equal.
  rewrite filter_app.
  replace (filter is_post puts) with (@nil exchange); [reflexivity |].
  induction Hputs as [| x l Hx _ IH]; [reflexivity |].
  cbn [filter]. unfold is_post at 1. rewrite Hx. cbn. exact IH.
Qed.

(** When [upload_file] returns, it returns the file URL, and the run
    consists of the create call, the part uploads and the complete call,
    nothing else.  The complete call carries the session's upload id and,
    in upload order, the part number and etag of every acknowledgement
    exactly as the worker returned them; its response had a true
    ["success"], an ["etag"] and a ["size"]. *)
Theorem a_returned_upload_was_completed (W : world)
    (self : MultipartUploader) (file_path resource_name : string)
    (file_url : string) (s' : state) :
  upload_file W self file_path resource_name initial = (Ok file_url, s') ->
  file_url = base_url self +++ "/file/" +++ resource_name /\
  exists cx upload_info client_token upload_id puts parts qx completion_info,
    exchanges s' = cx :: puts ++ [qx] /\
    opens_session (snd cx) upload_info client_token upload_id /\
    Forall2 (fun x entry => recorded (snd x) entry) puts parts /\
    fst qx = complete_request W self 3 upload_id resource_name parts /\
    payload (fst qx) =
      JsonBody (JDict [("uploadId", upload_id); ("parts", JList parts)]) /\
    snd qx = Responded (mkResponse None (inr (JDict completion_info))) /\
    truthy (success_of completion_info) = true /\
    dict_get "etag" completion_info <> None /\
    dict_get "size" completion_info <> None.
Proof.
  intros Hrun. apply upload_file_outcome in Hrun.
  inversion Hrun as
    [| | |
     | info ct uid puts parts c s'' Hpre Hsess Hphase qx Hcomp Hsum Hx Hr Hs];
    subst.
  cbn [exchanges initial app] in Hx.
  split; [reflexivity |].
  apply complete_result_ok in Hcomp. destruct Hcomp as [Hq Hsuccess].
  eexists _, info, ct, uid, puts, parts, qx, c.
  split; [exact Hx |].
  split; [apply session_result_iff; exact Hsess |].
  split; [eapply parts_phase_recorded; exact Hphase |].
  split; [reflexivity |].
  split; [reflexivity |].
  split; [exact Hq |].
  split; [exact Hsuccess |].
  unfold summary_result, getitem in Hsum.
  destruct (dict_get "etag" c); [| discriminate Hsum].
  cbn [and_then] in Hsum.
  destruct (dict_get "size" c); [| discriminate Hsum].
  split; discriminate.
Qed.

Lemma a_returned_upload_was_completed_witness :
  "http://localhost:8787/file/my-image"
  = base_url Scenario.uploader +++ "/file/" +++ "my-image".
Proof.
  refine (proj1 (a_returned_upload_was_completed
                   (Scenario.world_of [Scenario.created 1;
                                       Scenario.stored 1 3;
                                       Scenario.assembled])
                   Scenario.uploader "photo.jpg" "my-image"
                   "http://localhost:8787/file/my-image"
                   (snd (Scenario.run [Scenario.created 1;
                                       Scenario.stored 1 3;
                                       Scenario.assembled])) _)).
  vm_compute. reflexivity.
Defined.

(** When the complete call fails (the request errors or the worker
    answers without success), [upload_file] raises the error of that call
    and an abort request, the only one, follows it as the last request of
    the run. *)
Theorem failed_complete_aborts_once (W : world) (self : MultipartUploader)
    (file_path resource_name : string) (r : result string) (s' : state) :
  upload_file W self file_path resource_name initial = (r, s') ->
  forall (qx : exchange) (e : exn),
    nth_error (filter is_post (exchanges s')) 1 = Some qx ->
    call_fails complete_rejection (snd qx) e ->
    r = Raise e /\
    exists before ax,
      exchanges s' = before ++ [qx; ax] /\
      filter is_delete (exchanges s') = [ax] /\
      exists cx upload_info client_token upload_id,
        nth_error (exchanges s') 0 = Some cx /\
        opens_session (snd cx) upload_info client_token upload_id /\
        url (fst ax) =
          base_url self +++ "/upload/abort/" +++ py_str upload_id
            +++ "?fileId=" +++ resource_name.
Proof.
  intros Hrun x e Hnth Hfail.
  pose proof (call_fails_complete _ _ Hfail) as Hres.
  apply upload_file_outcome in Hrun.
  destruct Hrun as
    [e0 s' Hpre Hx
    | e0 s' Hpre Hsess Hx
    | info ct uid puts e0 s' Hpre Hsess Hphase ax Hx Ht Hout
    | info ct uid puts parts e0 n s' Hpre Hsess Hphase qx Hwhy ax Hx Ht Hout
    | info ct uid puts parts c s' Hpre Hsess Hphase qx Hcomp Hsum Hx];
    cbn [exchanges initial app] in Hx; rewrite Hx in Hnth |- *;
    try discriminate Hnth.
  - apply puts_are_puts in Hphase.
    rewrite filter_posts in Hnth by (reflexivity || assumption).
    discriminate Hnth.
  - pose proof (puts_are_puts _ _ _ _ _ _ _ Hphase) as Hputs.
    rewrite filter_posts in Hnth by (reflexivity || assumption).
    injection Hnth as <-.
    assert (e0 = e) as ->.
    { destruct Hwhy as [[Hc _] | (c & Hc & _)]; congruence. }
    split; [destruct Hfail; reflexivity |].
    eexists (_ :: puts), ax. split; [rewrite <- app_comm_cons; reflexivity |].
    split.
    { change (?a :: puts ++ [qx; ax]) with ([a] ++ puts ++ [qx; ax]).
      rewrite filter_deletes; [reflexivity | reflexivity | assumption]. }
    eexists _, info, ct, uid. split; [reflexivity |].
    split; [apply session_result_iff; exact Hsess | reflexivity].
  - pose proof (puts_are_puts _ _ _ _ _ _ _ Hphase) as Hputs.
    rewrite filter_posts in Hnth by (reflexivity || assumption).
    injection Hnth as <-. congruence.
Qed.

Lemma failed_complete_aborts_once_witness :
  fst (Scenario.run [Scenario.created 1; Scenario.stored 1 3;
                     Scenario.reply Scenario.refusal;
                     Scenario.unavailable])
  = Raise (UploadError "Failed to complete upload: quota exceeded").
Proof.
  refine (proj1 (failed_complete_aborts_once _ _ _ _ _ _
                   (surjective_pairing _)
                   (_, Scenario.reply Scenario.refusal) _ _
                   (fails_rejected _ Scenario.refusal _))).
  - vm_compute. reflexivity.
  - reflexivity.
Defined.

(** A complete call the worker accepted can still end in an abort: when
    the accepted response lacks ["etag"] or ["size"], printing the summary
    raises a [KeyError] for the first of the two that is missing; an abort
    request is sent for the upload that was just completed and
    [upload_file] raises ["Unexpected error: "] followed by the quoted
    key. *)
Theorem incomplete_completion_response_aborts (W : world)
    (self : MultipartUploader) (file_path resource_name : string)
    (r : result string) (s' : state) :
  upload_file W self file_path resource_name initial = (r, s') ->
  forall (qx : exchange) (completion_info : dict) (key : string),
    nth_error (filter is_post (exchanges s')) 1 = Some qx ->
    snd qx = Responded (mkResponse None (inr (JDict completion_info))) ->
    truthy (success_of completion_info) = true ->
    first_missing ["etag"; "size"] completion_info = Some key ->
    r = Raise (UploadError ("Unexpected error: '" +++ key +++ "'")) /\
    exists before ax,
      exchanges s' = before ++ [qx; ax] /\
      method (fst ax) = "DELETE".
Proof.
  intros Hrun x c key Hnth Hx Hsuccess Hmissing.
  assert (Hres : complete_result (snd x) = Ok c).
  { rewrite Hx. unfold complete_result. cbn. fold (success_of c).
    rewrite Hsuccess. reflexivity. }
  unfold first_missing in Hmissing. cbn [find] in Hmissing.
  apply upload_file_outcome in Hrun.
  destruct Hrun as
    [e0 s' Hpre Hx'
    | e0 s' Hpre Hsess Hx'
    | info ct uid puts e0 s' Hpre Hsess Hphase ax Hx' Ht Hout
    | info ct uid puts parts e0 n s' Hpre Hsess Hphase qx Hwhy ax Hx' Ht Hout
    | info ct uid puts parts c' s' Hpre Hsess Hphase qx Hcomp Hsum Hx'];
    cbn [exchanges initial app] in Hx'; rewrite Hx' in Hnth |- *;
    try discriminate Hnth.
  - apply puts_are_puts in Hphase.
    rewrite filter_posts in Hnth by (reflexivity || assumption).
    discriminate Hnth.
  - pose proof (puts_are_puts _ _ _ _ _ _ _ Hphase) as Hputs.
    rewrite filter_posts in Hnth by (reflexivity || assumption).
    injection Hnth as <-.
    destruct Hwhy as [[Hc _] | (c' & Hc & Hsum & _)]; [congruence |].
    assert (c' = c) as -> by congruence.
    unfold summary_result, getitem in Hsum.
    destruct (dict_get "etag" c) as [etag |] eqn:Hetag.
    + cbn [and_then] in Hsum.
      destruct (dict_get "size" c) as [size |] eqn:Hsize;
        [discriminate Hmissing |].
      injection Hsum as <-. injection Hmissing as <-.
      split; [reflexivity |].
      eexists (_ :: puts), ax. split; reflexivity.
    + injection Hsum as <-. injection Hmissing as <-.
      split; [reflexivity |].
      eexists (_ :: puts), ax. split; reflexivity.
  - pose proof (puts_are_puts _ _ _ _ _ _ _ Hphase) as Hputs.
    rewrite filter_posts in Hnth by (reflexivity || assumption).
    injection Hnth as <-.
    assert (c' = c) as -> by congruence.
    unfold summary_result, getitem in Hsum.
    destruct (dict_get "etag" c); [| discriminate Hsum].
    destruct (dict_get "size" c);
      [discriminate Hmissing | discriminate Hsum].
Qed.

Lemma incomplete_completion_response_aborts_witness :
  fst (Scenario.run [Scenario.created 1; Scenario.stored 1 3;
                     Scenario.reply [("success", JBool true)];
                     Scenario.unavailable])
  = Raise (UploadError "Unexpected error: 'etag'").
Proof.
  refine (proj1 (incomplete_completion_response_aborts _ _ _ _ _ _
                   (surjective_pairing _)
                   (_, Scenario.reply [("success", JBool true)])
                   [("success", JBool true)] "etag" _ eq_refl eq_refl
                   eq_refl)).
  vm_compute. reflexivity.
Defined.
